(** * FitCheck client (src/App.js): session, navigation and display logic

    A shallow embedding of the client-side logic of App.js: the string
    helpers behind the display label and the stylist notes, the session
    token with its AsyncStorage copy, and the event handlers that issue
    HTTP requests, raise alerts and navigate.

    JavaScript strings are sequences of UTF-16 code units; they are
    modelled as [list N].  Handlers are written in a small state-and-
    exception monad over a [World] that holds the React token state, the
    AsyncStorage map and the trace of observable effects. *)

From stdpp Require Import base list strings gmap.
From Stdlib Require Import NArith Ascii String Lia DecimalNat.

Local Open Scope N_scope.
Local Open Scope list_scope.

(** ** JavaScript strings *)

Module JsString.


Definition jsstring := list N.

(** Code units of an ASCII literal of the source. *)
Fixpoint lit (s : string) : jsstring :=
  match s with
  | EmptyString => []
  | String a r => N_of_ascii a :: lit r
  end.

(** ECMAScript WhiteSpace and LineTerminator code points: the set that
    [String.prototype.trim] strips and that the regex class [\s]
    matches.  All of them lie in the basic plane, so one code unit
    each. *)
Definition is_space (c : N) : bool :=
  (c =? 9) || (c =? 10) || (c =? 11) || (c =? 12) || (c =? 13)
  || (c =? 32) || (c =? 160) || (c =? 5760)
  || ((8192 <=? c) && (c <=? 8202))
  || (c =? 8232) || (c =? 8233) || (c =? 8239) || (c =? 8287)
  || (c =? 12288) || (c =? 65279).

Fixpoint trimStart (s : jsstring) : jsstring :=
  match s with
  | [] => []
  | c :: r => if is_space c then trimStart r else s
  end.

Definition trimEnd (s : jsstring) : jsstring := rev (trimStart (rev s)).

(** [s.trim()] *)
Definition trim (s : jsstring) : jsstring := trimEnd (trimStart s).

(** [s.replace(/\s+/g, " ")]: every maximal run of white space becomes
    one U+0020.  [in_run] records that the previous unit was white
    space, i.e. that the current match of [\s+] is still open. *)
Fixpoint squash (in_run : bool) (s : jsstring) : jsstring :=
  match s with
  | [] => []
  | c :: r =>
      if is_space c
      then (if in_run then squash true r else 32 :: squash true r)
      else c :: squash false r
  end.

Definition replace_ws (s : jsstring) : jsstring := squash false s.

(** The character class [[.;]]. *)
Definition is_stop (c : N) : bool := (c =? 46) || (c =? 59).

(** [s.split(/[.;]/)]: the pieces between separators, empty pieces
    kept; the empty string splits into one empty piece. *)
Fixpoint split (s : jsstring) : list jsstring :=
  match s with
  | [] => [[]]
  | c :: r =>
      if is_stop c then [] :: split r
      else match split r with
           | [] => [[c]]
           | p :: ps => (c :: p) :: ps
           end
  end.

(** Truthiness of a string value: only the empty string is falsy. *)
Definition nonempty (s : jsstring) : bool :=
  match s with [] => false | _ :: _ => true end.

(** [a || b] on strings. *)
Definition or_else (a b : jsstring) : jsstring :=
  if nonempty a then a else b.

End JsString.

Import JsString.
Arguments lit s%_string.

(** ** Data exchanged with the backend *)

(** A wardrobe item as the backend sends it.  Every descriptive field is
    a JSON string or is null or missing ([None]). *)
Record WardrobeItem := {
  image_url : jsstring;
  name : option jsstring;
  category : option jsstring;
  color : option jsstring;
  material : option jsstring;
  texture : option jsstring;
  formality : option jsstring;
  reason : option jsstring
}.

(** [field || dflt] for an optional string field: null, undefined and
    the empty string are falsy. *)
Definition field_or (f : option jsstring) (dflt : jsstring) : jsstring :=
  match f with
  | Some s => or_else s dflt
  | None => dflt
  end.

(** What [res.json()] delivers.  The body is not JSON ([JMalformed],
    the promise rejects), is the JSON value null ([JNull], every property
    read throws), or is a value read through the fields of [B]; a number,
    string or array where an object is expected is the [B] whose fields
    are all [None], since each property read on it gives undefined. *)
Inductive Json (B : Type) :=
| JMalformed
| JNull
| JValue (b : B).
Arguments JMalformed {B}.
Arguments JNull {B}.
Arguments JValue {B} b.

(** Body of /token and /signup. *)
Record TokenData := { access_token : option jsstring }.

(** Body of /items: an array, or an object with an optional [items]. *)
Inductive ItemsData :=
| ItemsArray (l : list WardrobeItem)
| ItemsObject (items : option (list WardrobeItem)).

(** Body of /outfit/from-prompt and /outfit/from-image. *)
Record OutfitData := {
  error : option jsstring;
  selected_items : option (list WardrobeItem);
  overall_reason : option jsstring;
  weather_summary : option jsstring;
  weather_warning : option jsstring
}.

Record Response (B : Type) := { status : N; payload : B }.
Arguments status {B} r.
Arguments payload {B} r.

(** [res.ok]: the status is in 200..299. *)
Definition ok {B} (r : Response B) : bool :=
  (200 <=? status r) && (status r <=? 299).

(** Outcome of a [fetch] call: the promise rejects (no response at all)
    or resolves with a response of any status. *)
Inductive Fetched (B : Type) :=
| NetworkFailure
| Responded (r : Response B).
Arguments NetworkFailure {B}.
Arguments Responded {B} r.

(** Device coordinates.  A number is kept as its decimal rendering, which
    is what both [JSON.stringify] and [String] put on the wire. *)
Record Coords := { lat : jsstring; lon : jsstring }.

(** ** Requests *)

Inductive Method := GET | POST | DELETE.

Inductive JsonVal :=
| JStr (s : jsstring)
| JNum (rendering : jsstring).

Inductive Part :=
| PText (s : jsstring)
| PFile (uri mime filename : jsstring).

Inductive Body :=
| NoBody
| FormUrlEncoded (fields : list (string * jsstring))
| Multipart (parts : list (string * Part))
| JsonBody (fields : list (string * JsonVal)).

Record Request := {
  method : Method;
  url : jsstring;
  headers : list (string * jsstring);
  body : Body
}.

Definition BACKEND_URL : jsstring := lit "http://10.228.248.210:8000".

(** The seven operations of the API client and the path each handler
    appends to [BACKEND_URL]. *)
Inductive ApiOp :=
| OpLogin | OpSignup | OpListItems | OpAddItem | OpDeleteItem
| OpRecommendFromPrompt | OpRecommendFromImage.

Definition path (op : ApiOp) : jsstring :=
  match op with
  | OpLogin => lit "/token"
  | OpSignup => lit "/signup"
  | OpListItems => lit "/items"
  | OpAddItem => lit "/add-item"
  | OpDeleteItem => lit "/delete-item"
  | OpRecommendFromPrompt => lit "/outfit/from-prompt"
  | OpRecommendFromImage => lit "/outfit/from-image"
  end.

(** The template [`${BACKEND_URL}/...`]. *)
Definition endpoint (op : ApiOp) : jsstring := BACKEND_URL ++ path op.

(** Scheme of a URL: the code units before the first colon. *)
Fixpoint url_scheme (u : jsstring) : jsstring :=
  match u with
  | [] => []
  | c :: r => if c =? 58 then [] else c :: url_scheme r
  end.

(** [`Bearer ${token}`]; a null token renders as the text null. *)
Definition bearer (token : option jsstring) : jsstring :=
  lit "Bearer " ++ match token with Some t => t | None => lit "null" end.

(** ** Observable effects *)

(** The route names registered with the stack navigator. *)
Inductive Screen :=
| Home | Wardrobe | ItemDetail | AddItem | Recommendations
| RecommendationResult | Login.

Record ResultParams := {
  outfit : list WardrobeItem;
  overallReason : jsstring;
  weatherSummary : jsstring;
  weatherWarning : jsstring
}.

Inductive NavParams :=
| NoParams
| SelectionMode (b : bool)
| SelectedWardrobeItem (item : option WardrobeItem)
| ItemParam (item : WardrobeItem)
| ResultParam (r : ResultParams).

(** Exceptions the handlers can see: [new Error(message)] of the source,
    a property read on null, a rejected [fetch] and a rejected
    [res.json()]. *)
Inductive JsError :=
| Error (message : jsstring)
| NullProperty (prop : string)
| NetworkError
| SyntaxError.

(** Second argument of [Alert.alert].  The text of an engine-made error
    is not fixed by the source, so [e.message] and [String(e)] stay
    symbolic. *)
Inductive AlertText :=
| NoText
| Text (s : jsstring)
| MessageOf (e : JsError)
| StringOf (e : JsError).

Inductive Event :=
| Alert (title : jsstring) (message : AlertText) (buttons : list jsstring)
| Fetch (r : Request)
| Navigate (s : Screen) (p : NavParams)
| GoBack
| SetParams (p : NavParams)
| SetLoading (b : bool)
| SetItems (l : list WardrobeItem)
| SetDeleting (b : bool)
| SetUploading (b : bool)
| SetImageUri (s : jsstring)
| SetPrompt (s : jsstring)
| SetCameraModalVisible (b : bool).

(** ** The world a handler runs in *)

(** [token] is the React state of [App]; [storage] is AsyncStorage;
    [trace] lists the effects issued so far, oldest first. *)
Record World := {
  token : option jsstring;
  storage : gmap string jsstring;
  trace : list Event
}.

Inductive Outcome (A : Type) :=
| Ok (a : A)
| Throw (e : JsError).
Arguments Ok {A} a.
Arguments Throw {A} e.

Definition M (A : Type) : Type := World -> Outcome A * World.

Definition ret {A} (a : A) : M A := fun w => (Ok a, w).

Definition bind {A B} (m : M A) (k : A -> M B) : M B :=
  fun w =>
    match m w with
    | (Ok a, w') => k a w'
    | (Throw e, w') => (Throw e, w')
    end.

Definition throw {A} (e : JsError) : M A := fun w => (Throw e, w).

(** [try { m } catch (e) { h e }] *)
Definition try_catch {A} (m : M A) (h : JsError -> M A) : M A :=
  fun w =>
    match m w with
    | (Ok a, w') => (Ok a, w')
    | (Throw e, w') => h e w'
    end.

(** [try { m } finally { f }]: [f] runs on both exits; an exception of
    [f] replaces the pending outcome. *)
Definition try_finally {A} (m : M A) (f : M unit) : M A :=
  fun w =>
    match m w with
    | (r, w') =>
        match f w' with
        | (Ok _, w'') => (r, w'')
        | (Throw e, w'') => (Throw e, w'')
        end
    end.

Notation "x <- m ;; k" := (bind m (fun x => k))
  (at level 100, m at next level, right associativity).
Notation "m ;; k" := (bind m (fun _ => k))
  (at level 100, right associativity).

Definition emit (ev : Event) : M unit :=
  fun w => (Ok tt, {| token := token w; storage := storage w;
                      trace := trace w ++ [ev] |}).

Definition when (b : bool) (m : M unit) : M unit := if b then m else ret tt.

(** [setToken(t)] *)
Definition setToken (t : option jsstring) : M unit :=
  fun w => (Ok tt, {| token := t; storage := storage w; trace := trace w |}).

Definition getToken : M (option jsstring) := fun w => (Ok (token w), w).

(** [AsyncStorage.setItem], [removeItem] and [getItem]. *)
Definition setItem (key : string) (v : jsstring) : M unit :=
  fun w => (Ok tt, {| token := token w; storage := <[key := v]> (storage w);
                      trace := trace w |}).

Definition removeItem (key : string) : M unit :=
  fun w => (Ok tt, {| token := token w; storage := delete key (storage w);
                      trace := trace w |}).

Definition getItem (key : string) : M (option jsstring) :=
  fun w => (Ok (storage w !! key), w).

(** [Alert.alert(title)], [Alert.alert(title, message)]. *)
Definition alert (title : jsstring) : M unit := emit (Alert title NoText []).
Definition alert2 (title : jsstring) (message : AlertText) : M unit :=
  emit (Alert title message []).

Definition navigate (s : Screen) (p : NavParams) : M unit := emit (Navigate s p).
Definition goBack : M unit := emit GoBack.

(** [await fetch(url, init)]: the request leaves, then the outcome the
    network gives is delivered. *)
Definition fetch {B} (rq : Request) (net : Fetched B) : M (Response B) :=
  emit (Fetch rq) ;;
  match net with
  | NetworkFailure => throw NetworkError
  | Responded r => ret r
  end.

(** [await res.json()]: [None] is the JSON value null. *)
Definition json {B} (res : Response (Json B)) : M (option B) :=
  match payload res with
  | JMalformed => throw SyntaxError
  | JNull => ret None
  | JValue b => ret (Some b)
  end.

(** [data.prop]: throws on null. *)
Definition prop {B V} (data : option B) (pname : string) (get : B -> V) : M V :=
  match data with
  | None => throw (NullProperty pname)
  | Some b => ret (get b)
  end.

(** Truthiness of a string-or-null value. *)
Definition truthy (v : option jsstring) : bool :=
  match v with Some s => nonempty s | None => false end.

(** Run a handler and keep the world it leaves. *)
Definition exec {A} (m : M A) (w : World) : World := snd (m w).

(** ** App: the session *)

(** [signIn] of the auth context.  [net] is what the network answers to
    the one request the function sends. *)
Definition signIn (username password : jsstring)
    (net : Fetched (Json TokenData)) : M unit :=
  try_catch
    (res <- fetch {| method := POST; url := endpoint OpLogin;
                     headers := [("Content-Type"%string,
                                  lit "application/x-www-form-urlencoded")];
                     body := FormUrlEncoded [("username"%string, username);
                                             ("password"%string, password)] |}
                  net ;;
     data <- json res ;;
     t <- prop data "access_token" access_token ;;
     match t with
     | Some tok =>
         if nonempty tok
         then setItem "token" tok ;; setToken (Some tok)
         else throw (Error (lit "Login failed"))
     | None => throw (Error (lit "Login failed"))
     end)
    (fun e => alert2 (lit "Login failed") (MessageOf e)).

Definition signUp (username password : jsstring)
    (net : Fetched (Json TokenData)) : M unit :=
  try_catch
    (res <- fetch {| method := POST; url := endpoint OpSignup;
                     headers := [("Content-Type"%string,
                                  lit "application/x-www-form-urlencoded")];
                     body := FormUrlEncoded [("username"%string, username);
                                             ("password"%string, password)] |}
                  net ;;
     data <- json res ;;
     t <- prop data "access_token" access_token ;;
     match t with
     | Some tok =>
         if nonempty tok
         then setItem "token" tok ;; setToken (Some tok)
         else throw (Error (lit "Signup failed"))
     | None => throw (Error (lit "Signup failed"))
     end)
    (fun e => alert2 (lit "Signup failed") (MessageOf e)).

Definition signOut : M unit :=
  setToken None ;; removeItem "token".

(** The boot effect: [const t = await AsyncStorage.getItem("token");
    if (t) setToken(t)]. *)
Definition boot : M unit :=
  t <- getItem "token" ;;
  when (truthy t) (setToken t).

(** The two top-level navigation states; [App] renders the
    authenticated screens exactly when [token] is truthy. *)
Inductive NavState := Unauthenticated | Authenticated.

Definition nav_state (w : World) : NavState :=
  if truthy (token w) then Authenticated else Unauthenticated.

(** ** LoginScreen *)

Definition validate (username password : jsstring) : M bool :=
  if negb (nonempty (trim username)) || negb (nonempty (trim password))
  then alert (lit "Enter username and password") ;; ret false
  else ret true.

(** [onPress] of the Login button. *)
Definition pressLogin (username password : jsstring)
    (net : Fetched (Json TokenData)) : M unit :=
  valid <- validate username password ;;
  if negb valid then ret tt
  else
    emit (SetLoading true) ;;
    signIn (trim username) (trim password) net ;;
    emit (SetLoading false).

(** [onPress] of the Sign Up button. *)
Definition pressSignUp (username password : jsstring)
    (net : Fetched (Json TokenData)) : M unit :=
  valid <- validate username password ;;
  if negb valid then ret tt
  else
    emit (SetLoading true) ;;
    signUp (trim username) (trim password) net ;;
    emit (SetLoading false).

(** ** WardrobeScreen *)

(** [route.params]: undefined, or an object that may hold
    [selectionMode]. *)
Definition isSelectionMode (params : option (option bool)) : bool :=
  match params with
  | Some (Some b) => b
  | _ => false
  end.

(** [fetchItems]; [focused_then] and [focused_last] are the answers of
    the two [navigation.isFocused()] calls. *)
Definition fetchItems (net : Fetched (Json ItemsData))
    (focused_then focused_last : bool) : M unit :=
  emit (SetLoading true) ;;
  try_finally
    (try_catch
       (tok <- getToken ;;
        res <- fetch {| method := GET; url := endpoint OpListItems;
                        headers := [("Authorization"%string, bearer tok)];
                        body := NoBody |} net ;;
        if status res =? 401
        then alert (lit "Session expired") ;; signOut
        else
          data <- json res ;;
          when focused_then
            (l <- match data with
                  | Some (ItemsArray l) => ret l
                  | Some (ItemsObject (Some l)) => ret l
                  | Some (ItemsObject None) => ret []
                  | None => throw (NullProperty "items")
                  end ;;
             emit (SetItems l)))
       (fun _ => alert (lit "Error fetching items")))
    (when focused_last (emit (SetLoading false))).

Definition handleItemPress (selection : bool) (item : WardrobeItem) : M unit :=
  if selection
  then navigate Recommendations (SelectedWardrobeItem (Some item))
  else navigate ItemDetail (ItemParam item).

(** The display label, written the same way in [renderGridItem],
    [ItemDetailScreen] and [OutfitCard]. *)
Definition label (item : WardrobeItem) : jsstring :=
  or_else
    (field_or (name item)
       (trim (field_or (color item) (lit "") ++ lit " "
              ++ field_or (category item) (lit "item"))))
    (lit "Item").

(** The pressable controls the wardrobe screen renders. *)
Inductive Control :=
| BackButton
| SignOutButton
| GridItem (item : WardrobeItem)
| AddItemButton.

Definition wardrobe_controls (selection loading : bool)
    (items : list WardrobeItem) : list Control :=
  [BackButton]
  ++ (if negb selection then [SignOutButton] else [])
  ++ (if loading then [] else map GridItem items)
  ++ (if negb selection then [AddItemButton] else []).

(** What pressing a control runs. *)
Definition press (selection : bool) (c : Control) : M unit :=
  match c with
  | BackButton => goBack
  | SignOutButton => signOut
  | GridItem item => handleItemPress selection item
  | AddItemButton => navigate AddItem NoParams
  end.

(** ** ItemDetailScreen *)

(** [handleDelete] only opens the confirmation dialog. *)
Definition handleDelete : M unit :=
  emit (Alert (lit "Delete item")
          (Text (lit "Are you sure you want to delete this item?"))
          [lit "Cancel"; lit "Delete"]).

(** [onPress] of the dialog's Delete button. *)
Definition confirmDelete (item : WardrobeItem) (net : Fetched unit) : M unit :=
  try_finally
    (try_catch
       (emit (SetDeleting true) ;;
        tok <- getToken ;;
        res <- fetch {| method := DELETE; url := endpoint OpDeleteItem;
                        headers := [("Authorization"%string, bearer tok)];
                        body := Multipart [("image_url"%string,
                                            PText (image_url item))] |} net ;;
        if negb (ok res) then throw (Error (lit "Delete failed"))
        else goBack)
       (fun e => alert2 (lit "Delete failed") (StringOf e)))
    (emit (SetDeleting false)).

(** ** AddItemScreen *)

(** [handlePhotoUpload]: [granted] is the camera permission answer,
    [shot] the picture's uri ([None] when the camera was cancelled),
    [name] the text of the name field; the response payload is
    [r.text()]. *)
Definition handlePhotoUpload (granted : bool) (shot : option jsstring)
    (name : jsstring) (net : Fetched jsstring) : M unit :=
  if negb granted then alert (lit "Camera permission required")
  else
    match shot with
    | None => ret tt
    | Some uri =>
        emit (SetImageUri uri) ;;
        emit (SetUploading true) ;;
        try_finally
          (try_catch
             (tok <- getToken ;;
              r <- fetch {| method := POST; url := endpoint OpAddItem;
                            headers := [("Authorization"%string, bearer tok)];
                            body := Multipart
                                      [("file"%string,
                                        PFile uri (lit "image/jpeg") (lit "photo.jpg"));
                                       ("name"%string,
                                        PText (or_else (trim name) (lit "Unnamed")))] |}
                         net ;;
              if negb (ok r)
              then throw (Error (or_else (payload r) (lit "Upload failed")))
              else
                alert2 (lit "Saved!") (Text (lit "Item added successfully.")) ;;
                goBack)
             (fun e => alert2 (lit "Error") (StringOf e)))
          (emit (SetUploading false))
    end.

(** ** RecommendationsScreen *)

Definition coords_json (coords : option Coords) : list (string * JsonVal) :=
  match coords with
  | Some c => [("lat"%string, JNum (lat c)); ("lon"%string, JNum (lon c))]
  | None => []
  end.

(** The navigation that follows a successful recommendation. *)
Definition showResult (data : option OutfitData) : M unit :=
  items <- prop data "selected_items" selected_items ;;
  o <- prop data "overall_reason" overall_reason ;;
  s <- prop data "weather_summary" weather_summary ;;
  wn <- prop data "weather_warning" weather_warning ;;
  navigate RecommendationResult
    (ResultParam {| outfit := match items with Some l => l | None => [] end;
                    overallReason := field_or o (lit "");
                    weatherSummary := field_or s (lit "");
                    weatherWarning := field_or wn (lit "") |}) ;;
  emit (SetPrompt (lit "")).

(** Shared tail of the three recommendation handlers, from the
    [isMounted] check after the [fetch] onwards. *)
Definition afterFetch (res : Response (Json OutfitData))
    (mounted_then : bool) : M unit :=
  if negb mounted_then then ret tt
  else
    data <- json res ;;
    if negb (ok res)
    then e <- prop data "error" error ;;
         throw (Error (field_or e (lit "Request failed")))
    else showResult data.

(** [generateFromPrompt]; [mounted_then] and [mounted_last] are the
    values of [isMounted.current] after the fetch and on exit. *)
Definition generateFromPrompt (prompt : jsstring) (coords : option Coords)
    (net : Fetched (Json OutfitData)) (mounted_then mounted_last : bool) : M unit :=
  emit (SetLoading true) ;;
  try_finally
    (try_catch
       (tok <- getToken ;;
        res <- fetch {| method := POST; url := endpoint OpRecommendFromPrompt;
                        headers := [("Authorization"%string, bearer tok);
                                    ("Content-Type"%string, lit "application/json")];
                        body := JsonBody ([("prompt"%string, JStr prompt)]
                                          ++ coords_json coords) |} net ;;
        afterFetch res mounted_then)
       (fun e => when mounted_last (alert2 (lit "Failed") (StringOf e))))
    (when mounted_last (emit (SetLoading false))).

Definition handleWardrobeSelection (item : WardrobeItem) (prompt : jsstring)
    (coords : option Coords) (net : Fetched (Json OutfitData))
    (mounted_then mounted_last : bool) : M unit :=
  emit (SetCameraModalVisible false) ;;
  emit (SetLoading true) ;;
  try_finally
    (try_catch
       (tok <- getToken ;;
        res <- fetch {| method := POST; url := endpoint OpRecommendFromPrompt;
                        headers := [("Authorization"%string, bearer tok);
                                    ("Content-Type"%string, lit "application/json")];
                        body := JsonBody ([("prompt"%string, JStr prompt);
                                           ("base_image_url"%string,
                                            JStr (image_url item))]
                                          ++ coords_json coords) |} net ;;
        afterFetch res mounted_then)
       (fun e => when mounted_last (alert2 (lit "Error") (StringOf e))))
    (when mounted_last (emit (SetLoading false))).

(** The effect that watches [route.params?.selectedWardrobeItem]. *)
Definition onSelectedWardrobeItem (param : option WardrobeItem)
    (prompt : jsstring) (coords : option Coords)
    (net : Fetched (Json OutfitData)) (mounted_then mounted_last : bool) : M unit :=
  match param with
  | Some item =>
      emit (SetParams (SelectedWardrobeItem None)) ;;
      handleWardrobeSelection item prompt coords net mounted_then mounted_last
  | None => ret tt
  end.

Definition coords_parts (coords : option Coords) : list (string * Part) :=
  match coords with
  | Some c => [("lat"%string, PText (lat c)); ("lon"%string, PText (lon c))]
  | None => []
  end.

Definition handleLaunchCamera (granted : bool) (shot : option jsstring)
    (prompt : jsstring) (coords : option Coords)
    (net : Fetched (Json OutfitData)) (mounted_then mounted_last : bool) : M unit :=
  if negb granted then alert (lit "Camera permission required")
  else
    emit (SetCameraModalVisible false) ;;
    match shot with
    | None => ret tt
    | Some uri =>
        emit (SetLoading true) ;;
        try_finally
          (try_catch
             (tok <- getToken ;;
              r <- fetch {| method := POST; url := endpoint OpRecommendFromImage;
                            headers := [("Authorization"%string, bearer tok)];
                            body := Multipart
                                      ([("file"%string,
                                         PFile uri (lit "image/jpeg") (lit "base.jpg"));
                                        ("prompt"%string, PText prompt)]
                                       ++ coords_parts coords) |} net ;;
              afterFetch r mounted_then)
             (fun e => when mounted_last (alert2 (lit "Failed") (StringOf e))))
          (when mounted_last (emit (SetLoading false)))
    end.

(** ** RecommendationResultScreen *)

(** The memoised [reasonPoints]. *)
Definition reasonPoints (overallReason : jsstring) : list jsstring :=
  if negb (nonempty overallReason) then []
  else
    let trimmed := trim (replace_ws overallReason) in
    let parts := map trim (split trimmed) in
    take 6 (List.filter (fun p => 0 <? N.of_nat (List.length p)) parts).

(** ** Reading a trace *)

(** The requests that left, in order. *)
Definition requests (t : list Event) : list Request :=
  omap (fun ev => match ev with Fetch rq => Some rq | _ => None end) t.

(** The alerts raised, in order. *)
Definition alerts (t : list Event) : list (jsstring * AlertText) :=
  omap (fun ev => match ev with Alert ti m _ => Some (ti, m) | _ => None end) t.

(** The targets of the [navigation.navigate] calls, in order. *)
Definition navigations (t : list Event) : list Screen :=
  omap (fun ev => match ev with Navigate s _ => Some s | _ => None end) t.

(** The text part a multipart request carries under [key]. *)
Definition form_text (key : string) (rq : Request) : option jsstring :=
  match body rq with
  | Multipart parts =>
      match list_find (fun kv => fst kv = key) parts with
      | Some (_, (_, PText s)) => Some s
      | _ => None
      end
  | _ => None
  end.

(** The member a JSON request body carries under [key]. *)
Definition json_member (key : string) (rq : Request) : option JsonVal :=
  match body rq with
  | JsonBody fields => snd <$> (snd <$> list_find (fun kv => fst kv = key) fields)
  | _ => None
  end.

(** ** Vocabulary of the specification *)

(** A string made of white space only (the empty string included). *)
Definition whitespace_only (s : jsstring) : bool := forallb is_space s.

(** The stylist notes before truncation, in the words of the
    specification: normalise white space, split on full stop and
    semicolon, trim each part, drop the empty parts. *)
Definition note_fragments (overallReason : jsstring) : list jsstring :=
  List.filter nonempty (map trim (split (trim (replace_ws overallReason)))).

(** The access token a sign-in or sign-up body holds, if any. *)
Definition body_access_token (d : Json TokenData) : option jsstring :=
  match d with
  | JValue b => access_token b
  | _ => None
  end.

(** The request [signIn] ([OpLogin]) and [signUp] ([OpSignup]) send. *)
Definition login_request (op : ApiOp) (username password : jsstring) : Request :=
  {| method := POST; url := endpoint op;
     headers := [("Content-Type"%string, lit "application/x-www-form-urlencoded")];
     body := FormUrlEncoded [("username"%string, username);
                             ("password"%string, password)] |}.

(** A computation keeps the session when it leaves token and storage as
    it found them, whatever its outcome. *)
Definition keeps_session {A} (m : M A) : Prop :=
  forall w, token (snd (m w)) = token w /\ storage (snd (m w)) = storage w.

(** A request addressed to one of the seven endpoints. *)
Definition to_backend (rq : Request) : Prop := exists op, url rq = endpoint op.

(** A computation only extends the trace, and every request it adds is
    addressed to an endpoint. *)
Definition sends_to_backend {A} (m : M A) : Prop :=
  forall w, exists new,
    trace (snd (m w)) = trace w ++ new /\ Forall to_backend (requests new).

(** The handlers that talk to the backend, with what the user and the
    environment supply to each. *)
Inductive ApiCall :=
| CallSignIn (username password : jsstring) (net : Fetched (Json TokenData))
| CallSignUp (username password : jsstring) (net : Fetched (Json TokenData))
| CallFetchItems (net : Fetched (Json ItemsData)) (focused_then focused_last : bool)
| CallConfirmDelete (item : WardrobeItem) (net : Fetched unit)
| CallPhotoUpload (granted : bool) (shot : option jsstring) (name : jsstring)
    (net : Fetched jsstring)
| CallGenerateFromPrompt (prompt : jsstring) (coords : option Coords)
    (net : Fetched (Json OutfitData)) (mounted_then mounted_last : bool)
| CallWardrobeSelection (item : WardrobeItem) (prompt : jsstring)
    (coords : option Coords) (net : Fetched (Json OutfitData))
    (mounted_then mounted_last : bool)
| CallLaunchCamera (granted : bool) (shot : option jsstring) (prompt : jsstring)
    (coords : option Coords) (net : Fetched (Json OutfitData))
    (mounted_then mounted_last : bool).

Definition run_call (c : ApiCall) : M unit :=
  match c with
  | CallSignIn u p net => signIn u p net
  | CallSignUp u p net => signUp u p net
  | CallFetchItems net f1 f2 => fetchItems net f1 f2
  | CallConfirmDelete item net => confirmDelete item net
  | CallPhotoUpload g shot n net => handlePhotoUpload g shot n net
  | CallGenerateFromPrompt pr co net m1 m2 => generateFromPrompt pr co net m1 m2
  | CallWardrobeSelection item pr co net m1 m2 =>
      handleWardrobeSelection item pr co net m1 m2
  | CallLaunchCamera g shot pr co net m1 m2 =>
      handleLaunchCamera g shot pr co net m1 m2
  end.

(** An item that has only the three fields the label reads. *)
Definition bare (n c k : option jsstring) : WardrobeItem :=
  {| image_url := lit "https://example.test/i.jpg"; name := n; category := k;
     color := c; material := None; texture := None; formality := None;
     reason := None |}.

(** A signed-in world with an empty trace. *)
Definition signed_in (tok : jsstring) : World :=
  {| token := Some tok; storage := {["token"%string := tok]}; trace := [] |}.

(** A signed-out world with an empty trace. *)
Definition signed_out : World :=
  {| token := None; storage := ∅; trace := [] |}.

(** ** HomeScreen and the base-item chooser *)

(** [onPress] of "Take me to my wardrobe". *)
Definition pressMyWardrobe : M unit := navigate Wardrobe (SelectionMode false).

(** [onPress] of "Generate my fit for today". *)
Definition pressGenerateFit : M unit := navigate Recommendations NoParams.

(** [onPress] of "Choose from Wardrobe" in the camera overlay. *)
Definition pressChooseFromWardrobe : M unit :=
  emit (SetCameraModalVisible false) ;;
  navigate Wardrobe (SelectionMode true).

(** What [route.params] of the wardrobe screen holds for the parameters
    of a navigation: undefined when none were passed, otherwise an object
    that has [selectionMode] or lacks it. *)
Definition wardrobe_route (p : NavParams) : option (option bool) :=
  match p with
  | NoParams => None
  | SelectionMode b => Some (Some b)
  | _ => Some None
  end.

(** ** List keys *)

Fixpoint digits (u : Decimal.uint) : jsstring :=
  match u with
  | Decimal.Nil => []
  | Decimal.D0 r => 48 :: digits r
  | Decimal.D1 r => 49 :: digits r
  | Decimal.D2 r => 50 :: digits r
  | Decimal.D3 r => 51 :: digits r
  | Decimal.D4 r => 52 :: digits r
  | Decimal.D5 r => 53 :: digits r
  | Decimal.D6 r => 54 :: digits r
  | Decimal.D7 r => 55 :: digits r
  | Decimal.D8 r => 56 :: digits r
  | Decimal.D9 r => 57 :: digits r
  end.

(** [`${idx}`] for an array index: its decimal digits. *)
Definition index_text (idx : nat) : jsstring := digits (Nat.to_uint idx).

(** [`${item.image_url}-${idx}`], the key of a grid cell and of an
    outfit card. *)
Definition item_key (idx : nat) (item : WardrobeItem) : jsstring :=
  image_url item ++ lit "-" ++ index_text idx.

(** [`reason-${idx}`], the key of a stylist note. *)
Definition reason_key (idx : nat) : jsstring := lit "reason-" ++ index_text idx.

(** The keys the wardrobe grid gives to its cells. *)
Definition grid_keys (items : list WardrobeItem) : list jsstring :=
  imap item_key items.

(** ** What RecommendationResultScreen renders *)

(** Value of [(weatherSummary || weatherWarning) && <View ...>]: the
    falsy empty string, or the widget with the sections whose text is
    non-empty. *)
Inductive WeatherSlot :=
| NoWeather
| WeatherWidget (warning summary : option jsstring).

Inductive ResultView :=
| EmptyState
| CuratedLook (weather : WeatherSlot)
    (cards : list (jsstring * WardrobeItem))
    (notes : option (list (jsstring * jsstring))).

Definition shown (s : jsstring) : option jsstring :=
  if nonempty s then Some s else None.

Definition renderResult (p : ResultParams) : ResultView :=
  if (List.length (outfit p) =? 0)%nat then EmptyState
  else
    CuratedLook
      (if nonempty (or_else (weatherSummary p) (weatherWarning p))
       then WeatherWidget (shown (weatherWarning p)) (shown (weatherSummary p))
       else NoWeather)
      (imap (fun idx item => (item_key idx item, item)) (outfit p))
      (let notes := reasonPoints (overallReason p) in
       if (0 <? List.length notes)%nat
       then Some (imap (fun idx n => (reason_key idx, n)) notes)
       else None).

(** ** More ways to read a trace and a world *)

(** The lists handed to [setItems], in order. *)
Definition item_updates (t : list Event) : list (list WardrobeItem) :=
  omap (fun ev => match ev with SetItems l => Some l | _ => None end) t.

(** The parameters of the [navigation.navigate] calls, in order. *)
Definition navigation_calls (t : list Event) : list (Screen * NavParams) :=
  omap (fun ev => match ev with Navigate s p => Some (s, p) | _ => None end) t.

(** The number of [navigation.goBack] calls. *)
Definition go_backs (t : list Event) : nat :=
  List.length (List.filter (fun ev => match ev with GoBack => true | _ => false end) t).

(** The value a request header has. *)
Definition header (key : string) (rq : Request) : option jsstring :=
  snd <$> (snd <$> list_find (fun kv => fst kv = key) (headers rq)).

(** The field a url-encoded form carries under [key]. *)
Definition form_field (key : string) (rq : Request) : option jsstring :=
  match body rq with
  | FormUrlEncoded fields =>
      snd <$> (snd <$> list_find (fun kv => fst kv = key) fields)
  | _ => None
  end.

(** The app is started again: [useState(null)] gives a null token, and
    AsyncStorage is what the last run left. *)
Definition restart (w : World) : World :=
  {| token := None; storage := storage w; trace := [] |}.

(** The calls that need a session: all but sign-in and sign-up. *)
Definition authenticated_call (c : ApiCall) : bool :=
  match c with
  | CallSignIn _ _ _ | CallSignUp _ _ _ => false
  | _ => true
  end.

(** No unit of [s] is a full stop or a semicolon. *)
Definition free_of_stops (s : jsstring) : bool := forallb (fun c => negb (is_stop c)) s.

(** White space in [s] is the plain space U+0020 only. *)
Definition plain_spaces (s : jsstring) : bool :=
  forallb (fun c => negb (is_space c) || (c =? 32)) s.

(** A computation lets no exception escape. *)
Definition never_throws {A} (m : M A) : Prop :=
  forall w, exists a, fst (m w) = Ok a.

(** The list a body of /items stands for: the array itself, the [items]
    member of an object, the empty list when the object has none, and
    nothing for a null or unparsable body. *)
Definition listed (d : Json ItemsData) : option (list WardrobeItem) :=
  match d with
  | JValue (ItemsArray l) => Some l
  | JValue (ItemsObject (Some l)) => Some l
  | JValue (ItemsObject None) => Some []
  | _ => None
  end.

(** The exception a recommendation answer ends in, if any. *)
Definition recommendation_failure (net : Fetched (Json OutfitData)) : option JsError :=
  match net with
  | NetworkFailure => Some NetworkError
  | Responded res =>
      match payload res with
      | JMalformed => Some SyntaxError
      | JNull => Some (NullProperty (if ok res then "selected_items" else "error"))
      | JValue d =>
          if ok res then None
          else Some (Error (field_or (error d) (lit "Request failed")))
      end
  end.

(** The parameters the result screen gets for a body. *)
Definition result_params (d : OutfitData) : ResultParams :=
  {| outfit := default [] (selected_items d);
     overallReason := field_or (overall_reason d) (lit "");
     weatherSummary := field_or (weather_summary d) (lit "");
     weatherWarning := field_or (weather_warning d) (lit "") |}.

(** The keys of the cards and of the notes a view holds. *)
Definition card_keys (v : ResultView) : list jsstring :=
  match v with
  | EmptyState => []
  | CuratedLook _ cards _ => map fst cards
  end.

Definition note_keys (v : ResultView) : list jsstring :=
  match v with
  | CuratedLook _ _ (Some notes) => map fst notes
  | _ => []
  end.

(** The token in memory is the token in storage. *)
Definition in_sync (w : World) : Prop := storage w !! "token"%string = token w.

(** * Properties *)

(** ** Trimming *)

Section Trim.

Implicit Types (s r : jsstring) (c : N).

Lemma trimStart_head s c r : trimStart s = c :: r -> is_space c = false.
Proof.
  induction s as [|d s IH]; simpl; [discriminate|].
  destruct (is_space d) eqn:E; [exact IH|].
  intros H; injection H as -> _; exact E.
Qed.

Lemma trimStart_idem s : trimStart (trimStart s) = trimStart s.
Proof.
  destruct (trimStart s) as [|c r] eqn:E; [reflexivity|].
  simpl. by rewrite (trimStart_head _ _ _ E).
Qed.

(** A last unit that is no white space survives the stripping of the
    front. *)
Lemma trimStart_snoc s c :
  is_space c = false -> trimStart (s ++ [c]) = trimStart s ++ [c].
Proof.
  intros Hc. induction s as [|d s IH]; simpl.
  - by rewrite Hc.
  - destruct (is_space d); [exact IH|reflexivity].
Qed.

Lemma trimEnd_cons_keep c s :
  is_space c = false -> trimEnd (c :: s) = c :: trimEnd s.
Proof.
  intros Hc. unfold trimEnd. simpl.
  rewrite trimStart_snoc by exact Hc.
  rewrite rev_app_distr. reflexivity.
Qed.

Lemma trimEnd_idem s : trimEnd (trimEnd s) = trimEnd s.
Proof.
  unfold trimEnd. rewrite rev_involutive, trimStart_idem. reflexivity.
Qed.

(** A trimmed string is empty or starts with a unit that is no white
    space. *)
Lemma trim_head s c r : trim s = c :: r -> is_space c = false.
Proof.
  unfold trim. destruct (trimStart s) as [|d t] eqn:E; [discriminate|].
  pose proof (trimStart_head _ _ _ E) as Hd.
  rewrite trimEnd_cons_keep by exact Hd.
  intros H; injection H as -> _; exact Hd.
Qed.

Lemma trimStart_trim s : trimStart (trim s) = trim s.
Proof.
  destruct (trim s) as [|c r] eqn:E; [reflexivity|].
  simpl. by rewrite (trim_head _ _ _ E).
Qed.

Lemma trim_idem s : trim (trim s) = trim s.
Proof.
  unfold trim at 1. rewrite trimStart_trim.
  unfold trim. apply trimEnd_idem.
Qed.

(** A non-empty trimmed string is not white space only. *)
Lemma trim_not_blank s : nonempty (trim s) = true -> whitespace_only (trim s) = false.
Proof.
  destruct (trim s) as [|c r] eqn:E; [discriminate|].
  intros _. simpl. by rewrite (trim_head _ _ _ E).
Qed.

Lemma length_positive_nonempty s : (0 <? N.of_nat (List.length s)) = nonempty s.
Proof. destruct s; reflexivity. Qed.

End Trim.

(** ** Stylist notes *)

Lemma reasonPoints_take (s : jsstring) : reasonPoints s = take 6 (note_fragments s).
Proof.
  unfold reasonPoints, note_fragments.
  destruct s as [|c s]; [reflexivity|].
  cbn [nonempty negb]. cbv zeta. f_equal.
  apply filter_ext. intros p. apply length_positive_nonempty.
Qed.

Lemma note_fragments_trimmed (s : jsstring) :
  Forall (fun p => trim p = p /\ p <> []) (note_fragments s).
Proof.
  unfold note_fragments. apply Forall_forall. intros p Hp.
  apply list_elem_of_In, filter_In in Hp as [Hin Hne].
  apply in_map_iff in Hin as [q [<- _]].
  split; [apply trim_idem|].
  intros E. rewrite E in Hne. discriminate.
Qed.

(** Every note shown is trimmed and non-empty, whatever the rationale. *)
Lemma reasonPoints_trimmed (s : jsstring) :
  Forall (fun p => trim p = p /\ p <> []) (reasonPoints s).
Proof.
  rewrite reasonPoints_take.
  eapply Forall_take, note_fragments_trimmed.
Qed.

(** C6: the rationale "Great for warm weather. Breathable fabric; casual
    fit." gives exactly three stylist notes, each equal to its own trim
    and none empty. *)
Theorem reasonPoints_warm_weather :
  let notes :=
    reasonPoints (lit "Great for warm weather. Breathable fabric; casual fit.") in
  notes = [lit "Great for warm weather"; lit "Breathable fabric"; lit "casual fit"]
  /\ List.length notes = 3%nat
  /\ Forall (fun p => trim p = p /\ p <> []) notes.
Proof.
  cbv zeta. split; [vm_compute; reflexivity|].
  split; [vm_compute; reflexivity|].
  apply reasonPoints_trimmed.
Qed.

(** C9: for every rationale the stylist notes are the first six
    fragments: never more than six entries, and whatever comes after the
    sixth fragment is not shown. *)
Theorem reasonPoints_at_most_six (s : jsstring) :
  (List.length (reasonPoints s) <= 6)%nat
  /\ List.length (reasonPoints s) = Nat.min 6 (List.length (note_fragments s))
  /\ note_fragments s = reasonPoints s ++ drop 6 (note_fragments s).
Proof.
  rewrite reasonPoints_take. repeat split.
  - rewrite length_take. lia.
  - apply length_take.
  - symmetry. apply take_drop.
Qed.

(** A rationale of eight fragments loses the last two. *)
Example reasonPoints_drops_tail :
  reasonPoints (lit "a. b. c. d. e. f. g. h.")
  = [lit "a"; lit "b"; lit "c"; lit "d"; lit "e"; lit "f"]
  /\ drop 6 (note_fragments (lit "a. b. c. d. e. f. g. h.")) = [lit "g"; lit "h"].
Proof. split; vm_compute; reflexivity. Qed.

(** ** Display label *)

Lemma or_else_nonempty (a b : jsstring) : nonempty a = true -> or_else a b = a.
Proof. unfold or_else. by intros ->. Qed.

Lemma label_named (item : WardrobeItem) (n : jsstring) :
  name item = Some n -> nonempty n = true -> label item = n.
Proof.
  intros Hn Hne. unfold label. rewrite Hn. simpl.
  rewrite (or_else_nonempty n) by exact Hne.
  by apply or_else_nonempty.
Qed.

Lemma label_unnamed (item : WardrobeItem) :
  truthy (name item) = false ->
  label item =
    or_else (trim (field_or (color item) (lit "") ++ lit " "
                   ++ field_or (category item) (lit "item")))
            (lit "Item").
Proof.
  unfold label, truthy, field_or at 1, or_else at 2.
  destruct (name item) as [n|]; [|reflexivity].
  by intros ->.
Qed.

(** With no category the text still ends in "item", so it is never
    empty and the last fallback is not taken. *)
Lemma label_without_category (item : WardrobeItem) :
  truthy (name item) = false -> truthy (category item) = false ->
  label item = trim (field_or (color item) (lit "") ++ lit " item").
Proof.
  intros Hn Hk. rewrite label_unnamed by exact Hn.
  assert (field_or (category item) (lit "item") = lit "item") as ->.
  { unfold field_or, or_else. destruct (category item) as [k|]; [|reflexivity].
    simpl in Hk. by rewrite Hk. }
  apply or_else_nonempty.
  set (c := field_or (color item) (lit "")).
  assert (exists p, c ++ lit " item" = p ++ [109]) as [p Hp].
  { exists (c ++ lit " ite"). rewrite <- app_assoc. reflexivity. }
  unfold trim, trimEnd.
  destruct (trimStart (c ++ lit " item")) as [|d r] eqn:E.
  - exfalso. rewrite Hp, trimStart_snoc in E by reflexivity.
    by destruct (trimStart p).
  - assert (exists q, d :: r = q ++ [109]) as [q Hq].
    { rewrite <- E, Hp, trimStart_snoc by reflexivity. eauto. }
    rewrite Hq, rev_app_distr. simpl.
    by destruct (rev (rev q)).
Qed.

(** C1 as the source has it: a non-empty name is the label; otherwise
    the label is the trimmed text "{color} {category}", an absent color
    read as the empty string and an absent category as "item", and only
    an empty text gives "Item".  So a null name with color "blue" and
    category "shirt" gives "blue shirt", and an item with none of the
    three fields gives "item". *)
Theorem label_fallback_chain :
  (forall item n, name item = Some n -> nonempty n = true -> label item = n)
  /\ (forall item, truthy (name item) = false ->
        label item =
          or_else (trim (field_or (color item) (lit "") ++ lit " "
                         ++ field_or (category item) (lit "item")))
                  (lit "Item"))
  /\ (forall item, truthy (name item) = false ->
        truthy (category item) = false ->
        label item = trim (field_or (color item) (lit "") ++ lit " item"))
  /\ label (bare None (Some (lit "blue")) (Some (lit "shirt"))) = lit "blue shirt"
  /\ label (bare None None None) = lit "item".
Proof.
  split; [exact label_named|].
  split; [exact label_unnamed|].
  split; [exact label_without_category|].
  split; vm_compute; reflexivity.
Qed.

Lemma label_fallback_chain_witness :
  label (bare (Some (lit "Denim jacket")) None (Some (lit "coat"))) = lit "Denim jacket"
  /\ label (bare (Some (lit "")) (Some (lit "red")) (Some (lit "scarf"))) = lit "red scarf"
  /\ label (bare None (Some (lit "green")) None) = lit "green item".
Proof.
  destruct label_fallback_chain as (Hnamed & Hunnamed & Hnocat & _).
  split; [apply Hnamed; reflexivity|].
  split.
  - rewrite Hunnamed by reflexivity. vm_compute. reflexivity.
  - rewrite Hnocat by reflexivity. vm_compute. reflexivity.
Defined.

(** The label of an item with no name, color or category is "item", not
    the "Item" of the specification. *)
Lemma label_all_absent_is_not_Item :
  label (bare None None None) = lit "item"
  /\ label (bare None None None) <> lit "Item".
Proof. split; vm_compute; [reflexivity|discriminate]. Qed.

(** The last fallback is reached only through a category of white
    space. *)
Example label_Item_reachable :
  label (bare None (Some (lit "")) (Some (lit " "))) = lit "Item".
Proof. vm_compute. reflexivity. Qed.

(** ** Base URL *)

Lemma endpoint_scheme (op : ApiOp) : url_scheme (endpoint op) = lit "http".
Proof. destruct op; vm_compute; reflexivity. Qed.

Lemma to_backend_http (rq : Request) :
  to_backend rq -> url_scheme (url rq) = lit "http".
Proof. intros [op ->]. apply endpoint_scheme. Qed.

(** A step that leaves the trace alone. *)
Lemma sends_silent {A} (m : M A) :
  (forall w, trace (snd (m w)) = trace w) -> sends_to_backend m.
Proof.
  intros H w. exists []. rewrite app_nil_r. split; [apply H|constructor].
Qed.

Section SendsToBackend.

Context {A B : Type}.

Lemma sends_bind (m : M A) (k : A -> M B) :
  sends_to_backend m -> (forall a, sends_to_backend (k a)) ->
  sends_to_backend (bind m k).
Proof.
  intros Hm Hk w. unfold bind. destruct (Hm w) as (n1 & E1 & F1).
  destruct (m w) as [[a|e] w1]; cbn [snd] in *; [|eauto].
  destruct (Hk a w1) as (n2 & E2 & F2). exists (n1 ++ n2).
  rewrite E2, E1, app_assoc. split; [reflexivity|].
  unfold requests in *. rewrite omap_app. by apply Forall_app.
Qed.

Lemma sends_try_catch (m : M A) (h : JsError -> M A) :
  sends_to_backend m -> (forall e, sends_to_backend (h e)) ->
  sends_to_backend (try_catch m h).
Proof.
  intros Hm Hh w. unfold try_catch. destruct (Hm w) as (n1 & E1 & F1).
  destruct (m w) as [[a|e] w1]; cbn [snd] in *; [eauto|].
  destruct (Hh e w1) as (n2 & E2 & F2). exists (n1 ++ n2).
  rewrite E2, E1, app_assoc. split; [reflexivity|].
  unfold requests in *. rewrite omap_app. by apply Forall_app.
Qed.

Lemma sends_try_finally (m : M A) (f : M unit) :
  sends_to_backend m -> sends_to_backend f ->
  sends_to_backend (try_finally m f).
Proof.
  intros Hm Hf w. unfold try_finally. destruct (Hm w) as (n1 & E1 & F1).
  destruct (m w) as [r w1]; cbn [snd] in *.
  destruct (Hf w1) as (n2 & E2 & F2).
  assert (trace (snd (f w1)) = trace w ++ (n1 ++ n2)
          /\ Forall to_backend (requests (n1 ++ n2))) as Hboth.
  { rewrite E2, E1, app_assoc. split; [reflexivity|].
    unfold requests in *. rewrite omap_app. by apply Forall_app. }
  destruct (f w1) as [[u|e] w2]; cbn [snd] in *; eauto.
Qed.

Lemma sends_fetch (rq : Request) (net : Fetched A) :
  to_backend rq -> sends_to_backend (fetch rq net).
Proof.
  intros Hrq w. exists [Fetch rq].
  split; [by destruct net|by repeat constructor].
Qed.

Lemma sends_json (res : Response (Json A)) : sends_to_backend (json res).
Proof. apply (sends_silent (json res)). intros w. unfold json. by destruct (payload res). Qed.

Lemma sends_prop (data : option A) (pname : string) (get : A -> B) :
  sends_to_backend (prop data pname get).
Proof. apply (sends_silent (prop data pname get)). intros w. by destruct data. Qed.

Lemma sends_ret (a : A) : sends_to_backend (ret a).
Proof. by apply (sends_silent (ret a)). Qed.

Lemma sends_throw (e : JsError) : sends_to_backend (@throw A e).
Proof. by apply (sends_silent (throw e)). Qed.

End SendsToBackend.

(** The effects that are not requests. *)
Lemma sends_alert (title : jsstring) (m : AlertText) (bs : list jsstring) :
  sends_to_backend (emit (Alert title m bs)).
Proof. intros w. exists [Alert title m bs]. split; [reflexivity|constructor]. Qed.

Lemma sends_navigate (s : Screen) (p : NavParams) :
  sends_to_backend (emit (Navigate s p)).
Proof. intros w. exists [Navigate s p]. split; [reflexivity|constructor]. Qed.

Lemma sends_local (ev : Event) :
  requests [ev] = [] -> sends_to_backend (emit ev).
Proof. intros H w. exists [ev]. rewrite H. split; [reflexivity|constructor]. Qed.

Lemma sends_getToken : sends_to_backend getToken.
Proof. by apply (sends_silent getToken). Qed.

Lemma sends_setToken (t : option jsstring) : sends_to_backend (setToken t).
Proof. by apply (sends_silent (setToken t)). Qed.

Lemma sends_setItem (k : string) (v : jsstring) : sends_to_backend (setItem k v).
Proof. by apply (sends_silent (setItem k v)). Qed.

Lemma sends_removeItem (k : string) : sends_to_backend (removeItem k).
Proof. by apply (sends_silent (removeItem k)). Qed.

Lemma endpoint_to_backend (m : Method) (op : ApiOp)
    (h : list (string * jsstring)) (b : Body) :
  to_backend {| method := m; url := endpoint op; headers := h; body := b |}.
Proof. by exists op. Qed.

Create HintDb backend.
#[local] Hint Resolve sends_ret sends_throw sends_json sends_prop sends_alert
  sends_navigate sends_getToken sends_setToken sends_setItem sends_removeItem
  endpoint_to_backend : backend.

(** Walk through a handler, one combinator or one branch at a time. *)
Ltac sends :=
  repeat first
    [ apply sends_fetch
    | apply sends_bind; [|intros ?]
    | apply sends_try_catch; [|intros ?]
    | apply sends_try_finally
    | apply sends_local; reflexivity
    | match goal with
      | |- sends_to_backend (when ?b _) => destruct b; cbn [when]
      | |- sends_to_backend (if ?b then _ else _) => destruct b
      | |- sends_to_backend (match ?x with _ => _ end) => destruct x
      end
    | solve [auto with backend] ].

Lemma run_call_sends_to_backend (c : ApiCall) : sends_to_backend (run_call c).
Proof.
  destruct c; cbn [run_call];
    unfold signIn, signUp, fetchItems, confirmDelete, handlePhotoUpload,
      generateFromPrompt, handleWardrobeSelection, handleLaunchCamera,
      afterFetch, showResult, signOut, alert, alert2, navigate, goBack;
    sends.
Qed.

(** C3 as the source has it: every operation of the API client goes to
    the single base URL http://10.228.248.210:8000, so each of the seven
    endpoints has the scheme http, and every request that any handler
    sends, whatever its inputs, has a URL of scheme http. *)
Theorem every_request_is_http :
  BACKEND_URL = lit "http://10.228.248.210:8000"
  /\ (forall op, url_scheme (endpoint op) = lit "http"
                 /\ take (List.length BACKEND_URL) (endpoint op) = BACKEND_URL)
  /\ (forall c w, exists new,
        trace (exec (run_call c) w) = trace w ++ new
        /\ Forall (fun rq => url_scheme (url rq) = lit "http") (requests new)).
Proof.
  split; [reflexivity|]. split.
  - intros op. split; [apply endpoint_scheme|]. destruct op; vm_compute; reflexivity.
  - intros c w. destruct (run_call_sends_to_backend c w) as (new & E & F).
    exists new. split; [exact E|].
    eapply Forall_impl; [exact F|]. apply to_backend_http.
Qed.

(** The login request, like every other, is not issued over https. *)
Lemma login_endpoint_not_https :
  url_scheme BACKEND_URL = lit "http"
  /\ url_scheme (endpoint OpLogin) <> lit "https".
Proof. split; vm_compute; [reflexivity|discriminate]. Qed.

(** ** Reading traces piecewise *)

Lemma requests_app (t u : list Event) :
  requests (t ++ u) = requests t ++ requests u.
Proof. apply omap_app. Qed.

Lemma alerts_app (t u : list Event) : alerts (t ++ u) = alerts t ++ alerts u.
Proof. apply omap_app. Qed.

Lemma navigations_app (t u : list Event) :
  navigations (t ++ u) = navigations t ++ navigations u.
Proof. apply omap_app. Qed.

Create Rewrite HintDb trace_db.
#[local] Hint Rewrite requests_app alerts_app navigations_app : trace_db.
#[local] Hint Rewrite <- app_assoc : trace_db.

(** Unfold the monad and run a handler on the world at hand. *)
Ltac run :=
  repeat progress
    (cbv [exec bind ret throw try_catch try_finally emit when alert alert2
          navigate goBack fetch json prop setToken getToken setItem
          removeItem getItem signOut];
     cbn [snd fst token storage trace negb payload status access_token]).

Ltac read_trace :=
  cbn [snd fst token storage trace];
  autorewrite with trace_db;
  cbn [requests alerts navigations omap app];
  rewrite ?app_nil_r.

(** ** Sign-out and the navigation state *)

Lemma signOut_clears (w : World) :
  token (exec signOut w) = None
  /\ storage (exec signOut w) !! "token"%string = None
  /\ nav_state (exec signOut w) = Unauthenticated
  /\ trace (exec signOut w) = trace w.
Proof.
  run. repeat split. apply lookup_delete_eq.
Qed.

(** The login stack is shown exactly when no usable token is held. *)
Lemma nav_state_unauthenticated (w : World) :
  nav_state w = Unauthenticated <-> truthy (token w) = false.
Proof. unfold nav_state. destruct (truthy (token w)); split; congruence. Qed.

(** At start-up a stored non-empty token opens the authenticated
    screens; with nothing stored the token is left as it is. *)
Lemma boot_restores (tok : jsstring) (w : World) :
  storage w !! "token"%string = Some tok -> nonempty tok = true ->
  token (exec boot w) = Some tok /\ nav_state (exec boot w) = Authenticated.
Proof.
  intros Hs Hne. unfold boot, nav_state. run. rewrite Hs.
  cbn [truthy]. rewrite Hne. run. cbn [truthy]. by rewrite Hne.
Qed.

Lemma boot_without_token (w : World) :
  storage w !! "token"%string = None -> exec boot w = w.
Proof. intros Hs. unfold boot. run. rewrite Hs. by destruct w. Qed.

(** Opening the delete dialog sends nothing. *)
Lemma handleDelete_only_asks (w : World) :
  requests (trace (exec handleDelete w)) = requests (trace w)
  /\ token (exec handleDelete w) = token w
  /\ storage (exec handleDelete w) = storage w.
Proof. unfold handleDelete. run. by read_trace. Qed.

(** ** Listing items *)

(** C4: whatever the world, the body and the focus of the screen, a
    response of status 401 to GET /items leaves the in-memory token
    null, no value under the storage key "token", and the navigation
    state Unauthenticated; the user is told that the session expired. *)
Theorem fetchItems_401_signs_out (res : Response (Json ItemsData))
    (focused_then focused_last : bool) (w : World) :
  status res = 401 ->
  let w' := exec (fetchItems (Responded res) focused_then focused_last) w in
  token w' = None
  /\ storage w' !! "token"%string = None
  /\ nav_state w' = Unauthenticated
  /\ alerts (trace w') = alerts (trace w) ++ [(lit "Session expired", NoText)]
  /\ List.map url (requests (trace w')) =
       List.map url (requests (trace w)) ++ [endpoint OpListItems].
Proof.
  intros H401. unfold fetchItems. run. rewrite H401.
  cbn [N.eqb Pos.eqb].
  assert (forall t, nav_state {| token := None; storage := delete "token"%string (storage w);
                                 trace := t |} = Unauthenticated) as Hnav
    by reflexivity.
  destruct focused_last; cbn [token storage trace];
    (split; [reflexivity|]); (split; [apply lookup_delete_eq|]);
    (split; [apply Hnav|]); read_trace; rewrite ?app_nil_r;
    (split; [reflexivity|]); by rewrite map_app.
Qed.

Lemma fetchItems_401_signs_out_witness :
  let w' := exec (fetchItems (Responded {| status := 401; payload := JNull |})
                    true true) (signed_in (lit "abc")) in
  token w' = None /\ storage w' !! "token"%string = None
  /\ nav_state w' = Unauthenticated.
Proof.
  pose proof (fetchItems_401_signs_out
                {| status := 401; payload := JNull |} true true
                (signed_in (lit "abc")) eq_refl) as H.
  cbv zeta in *. destruct H as (H1 & H2 & H3 & _).
  split; [exact H1|]. split; [exact H2|exact H3].
Defined.

(** ** Signing in and signing up *)

(** A body with no usable access token (absent, null or empty; a null
    or unparsable body too) changes neither token nor storage and ends
    in the failure alert. *)
Lemma signIn_rejected (username password : jsstring)
    (res : Response (Json TokenData)) (w : World) :
  truthy (body_access_token (payload res)) = false ->
  exists e,
    exec (signIn username password (Responded res)) w =
      {| token := token w; storage := storage w;
         trace := trace w ++ [Fetch (login_request OpLogin username password);
                              Alert (lit "Login failed") (MessageOf e) []] |}.
Proof.
  intros H. destruct res as [st [| |[[[|c t]|]]]]; try discriminate H;
    unfold signIn; run; cbn [nonempty]; run;
    eexists; rewrite <- ?app_assoc; reflexivity.
Qed.

Lemma signUp_rejected (username password : jsstring)
    (res : Response (Json TokenData)) (w : World) :
  truthy (body_access_token (payload res)) = false ->
  exists e,
    exec (signUp username password (Responded res)) w =
      {| token := token w; storage := storage w;
         trace := trace w ++ [Fetch (login_request OpSignup username password);
                              Alert (lit "Signup failed") (MessageOf e) []] |}.
Proof.
  intros H. destruct res as [st [| |[[[|c t]|]]]]; try discriminate H;
    unfold signUp; run; cbn [nonempty]; run;
    eexists; rewrite <- ?app_assoc; reflexivity.
Qed.

(** A body with a non-empty access token signs the user in. *)
Lemma signIn_accepted (username password tok : jsstring) (st : N) (w : World) :
  nonempty tok = true ->
  let w' := exec (signIn username password
                    (Responded {| status := st;
                                  payload := JValue {| access_token := Some tok |} |})) w in
  token w' = Some tok
  /\ storage w' !! "token"%string = Some tok
  /\ nav_state w' = Authenticated.
Proof.
  intros H. unfold signIn, nav_state. run. rewrite H. run.
  cbn [truthy]. rewrite H.
  repeat split. apply lookup_insert_eq.
Qed.

(** C5: when the body of the sign-in or sign-up response has no
    access_token, a signed-out session stays signed out: the token is
    still null, local storage is as it was, the login stack is still
    shown, and one alert ("Login failed" or "Signup failed") is
    raised. *)
Theorem missing_access_token_keeps_signed_out (username password : jsstring)
    (res : Response (Json TokenData)) (w : World) :
  body_access_token (payload res) = None ->
  token w = None ->
  let w1 := exec (signIn username password (Responded res)) w in
  let w2 := exec (signUp username password (Responded res)) w in
  (token w1 = None /\ storage w1 = storage w /\ nav_state w1 = Unauthenticated
   /\ exists e, alerts (trace w1) =
                  alerts (trace w) ++ [(lit "Login failed", MessageOf e)])
  /\ (token w2 = None /\ storage w2 = storage w /\ nav_state w2 = Unauthenticated
      /\ exists e, alerts (trace w2) =
                     alerts (trace w) ++ [(lit "Signup failed", MessageOf e)]).
Proof.
  intros Hbody Htok. cbv zeta.
  assert (truthy (body_access_token (payload res)) = false) as Hfalsy
    by (rewrite Hbody; reflexivity).
  destruct (signIn_rejected username password res w Hfalsy) as [e1 ->].
  destruct (signUp_rejected username password res w Hfalsy) as [e2 ->].
  unfold nav_state. cbn [token storage trace]. rewrite Htok.
  split; (repeat split; eexists; read_trace; reflexivity).
Qed.

Lemma missing_access_token_keeps_signed_out_witness :
  let res := {| status := 401; payload := JValue {| access_token := None |} |} in
  token (exec (signIn (lit "ann") (lit "pw") (Responded res)) signed_out) = None
  /\ token (exec (signUp (lit "ann") (lit "pw") (Responded res)) signed_out) = None.
Proof.
  cbv zeta.
  pose proof (missing_access_token_keeps_signed_out (lit "ann") (lit "pw")
                {| status := 401; payload := JValue {| access_token := None |} |}
                signed_out eq_refl eq_refl) as H.
  cbv zeta in H. destruct H as [(H1 & _) (H2 & _)].
  split; [exact H1|exact H2].
Defined.

(** ** Login form *)

Lemma validate_blank (username password : jsstring) (w : World) :
  trim username = [] \/ trim password = [] ->
  validate username password w =
    (Ok false, {| token := token w; storage := storage w;
                  trace := trace w ++ [Alert (lit "Enter username and password")
                                         NoText []] |}).
Proof.
  intros H. unfold validate.
  assert (negb (nonempty (trim username)) || negb (nonempty (trim password)) = true) as ->.
  { destruct H as [-> | ->]; [reflexivity|]. apply orb_true_r. }
  reflexivity.
Qed.

(** C7: when the username or the password trims to the empty string,
    pressing Login or Sign Up only raises the alert "Enter username and
    password": token and storage are untouched and no request is added
    to the trace, so neither [signIn] nor [signUp] ran. *)
Theorem blank_credentials_stay_local (username password : jsstring)
    (net : Fetched (Json TokenData)) (w : World) :
  trim username = [] \/ trim password = [] ->
  let prompt := Alert (lit "Enter username and password") NoText [] in
  let w' := {| token := token w; storage := storage w;
               trace := trace w ++ [prompt] |} in
  exec (pressLogin username password net) w = w'
  /\ exec (pressSignUp username password net) w = w'
  /\ requests (trace w') = requests (trace w)
  /\ nav_state w' = nav_state w.
Proof.
  intros H. cbv zeta.
  unfold pressLogin, pressSignUp, exec, bind.
  rewrite (validate_blank _ _ w H). cbn [negb snd ret].
  repeat split. by read_trace.
Qed.

Lemma blank_credentials_stay_local_witness :
  requests (trace (exec (pressLogin (lit "  ") (lit "secret") NetworkFailure)
                     signed_out)) = []
  /\ requests (trace (exec (pressSignUp (lit "ann") (lit "") NetworkFailure)
                        signed_out)) = [].
Proof.
  split.
  - destruct (blank_credentials_stay_local (lit "  ") (lit "secret")
                NetworkFailure signed_out) as (-> & _ & _ & _);
      [left; reflexivity | reflexivity].
  - destruct (blank_credentials_stay_local (lit "ann") (lit "")
                NetworkFailure signed_out) as (_ & -> & _ & _);
      [right; reflexivity | reflexivity].
Defined.

(** With both fields filled, Login does send the request. *)
Example filled_credentials_send :
  List.map url (requests (trace (exec (pressLogin (lit " ann ") (lit "pw")
                                         NetworkFailure) signed_out)))
  = [endpoint OpLogin].
Proof. vm_compute. reflexivity. Qed.

(** ** Status 401 outside the item list *)

Section KeepsSession.

Context {A B : Type}.

Lemma keeps_ret (a : A) : keeps_session (ret a).
Proof. by intros w. Qed.

Lemma keeps_throw (e : JsError) : keeps_session (@throw A e).
Proof. by intros w. Qed.

Lemma keeps_bind (m : M A) (k : A -> M B) :
  keeps_session m -> (forall a, keeps_session (k a)) -> keeps_session (bind m k).
Proof.
  intros Hm Hk w. unfold bind. destruct (Hm w) as [Ht Hs].
  destruct (m w) as [[a|e] w1]; cbn [snd] in *; [|done].
  destruct (Hk a w1) as [Ht' Hs']. split; congruence.
Qed.

Lemma keeps_try_catch (m : M A) (h : JsError -> M A) :
  keeps_session m -> (forall e, keeps_session (h e)) ->
  keeps_session (try_catch m h).
Proof.
  intros Hm Hh w. unfold try_catch. destruct (Hm w) as [Ht Hs].
  destruct (m w) as [[a|e] w1]; cbn [snd] in *; [done|].
  destruct (Hh e w1) as [Ht' Hs']. split; congruence.
Qed.

Lemma keeps_try_finally (m : M A) (f : M unit) :
  keeps_session m -> keeps_session f -> keeps_session (try_finally m f).
Proof.
  intros Hm Hf w. unfold try_finally. destruct (Hm w) as [Ht Hs].
  destruct (m w) as [r w1]; cbn [snd] in *.
  destruct (Hf w1) as [Ht' Hs'].
  destruct (f w1) as [[u|e] w2]; cbn [snd] in *; split; congruence.
Qed.

Lemma keeps_fetch (rq : Request) (net : Fetched A) : keeps_session (fetch rq net).
Proof. intros w. by destruct net. Qed.

Lemma keeps_json (res : Response (Json A)) : keeps_session (json res).
Proof. intros w. unfold json. by destruct (payload res). Qed.

Lemma keeps_prop (data : option A) (pname : string) (get : A -> B) :
  keeps_session (prop data pname get).
Proof. intros w. by destruct data. Qed.

End KeepsSession.

Lemma keeps_emit (ev : Event) : keeps_session (emit ev).
Proof. by intros w. Qed.

Lemma keeps_getToken : keeps_session getToken.
Proof. by intros w. Qed.

Lemma keeps_when (b : bool) (m : M unit) :
  keeps_session m -> keeps_session (when b m).
Proof. intros Hm. destruct b; [exact Hm|apply keeps_ret]. Qed.

Create HintDb session.
#[local] Hint Resolve keeps_ret keeps_throw keeps_fetch keeps_json keeps_prop
  keeps_emit keeps_getToken keeps_when : session.
#[local] Hint Unfold alert alert2 navigate goBack : session.

(** Walk through a handler, one combinator or one branch at a time. *)
Ltac keeps :=
  repeat first
    [ apply keeps_bind; [|intros ?]
    | apply keeps_try_catch; [|intros ?]
    | apply keeps_try_finally
    | apply keeps_when
    | match goal with
      | |- keeps_session (if ?b then _ else _) => destruct b
      | |- keeps_session (match ?x with _ => _ end) => destruct x
      end
    | solve [autounfold with session; auto with session] ].

(** No handler but [fetchItems] touches the session: whatever the
    response, its status included, token and storage are as before. *)
Lemma confirmDelete_keeps_session (item : WardrobeItem) (net : Fetched unit) :
  keeps_session (confirmDelete item net).
Proof. unfold confirmDelete. keeps. Qed.

Lemma handlePhotoUpload_keeps_session (granted : bool) (shot : option jsstring)
    (name : jsstring) (net : Fetched jsstring) :
  keeps_session (handlePhotoUpload granted shot name net).
Proof. unfold handlePhotoUpload. keeps. Qed.

Lemma afterFetch_keeps_session (res : Response (Json OutfitData))
    (mounted_then : bool) :
  keeps_session (afterFetch res mounted_then).
Proof. unfold afterFetch, showResult. keeps. Qed.

#[local] Hint Resolve afterFetch_keeps_session : session.

Lemma generateFromPrompt_keeps_session (prompt : jsstring)
    (coords : option Coords) (net : Fetched (Json OutfitData))
    (mounted_then mounted_last : bool) :
  keeps_session (generateFromPrompt prompt coords net mounted_then mounted_last).
Proof. unfold generateFromPrompt. keeps. Qed.

Lemma handleWardrobeSelection_keeps_session (item : WardrobeItem)
    (prompt : jsstring) (coords : option Coords)
    (net : Fetched (Json OutfitData)) (mounted_then mounted_last : bool) :
  keeps_session (handleWardrobeSelection item prompt coords net
                   mounted_then mounted_last).
Proof. unfold handleWardrobeSelection. keeps. Qed.

Lemma handleLaunchCamera_keeps_session (granted : bool) (shot : option jsstring)
    (prompt : jsstring) (coords : option Coords)
    (net : Fetched (Json OutfitData)) (mounted_then mounted_last : bool) :
  keeps_session (handleLaunchCamera granted shot prompt coords net
                   mounted_then mounted_last).
Proof. unfold handleLaunchCamera. keeps. Qed.

(** [fetchItems] is the one that does not. *)
Example fetchItems_drops_session :
  ~ keeps_session (fetchItems (Responded {| status := 401; payload := JNull |})
                     true true).
Proof. intros H. destruct (H (signed_in (lit "abc"))) as [Ht _]. discriminate Ht. Qed.

(** C2 at its failing input: a 401 answer to DELETE /delete-item, to
    POST /add-item and to POST /outfit/from-prompt leaves a signed-in
    user signed in, with the token still in storage; the 401 is shown as
    an ordinary failure. *)
Theorem status_401_elsewhere_keeps_session :
  let w := signed_in (lit "abc") in
  let item := bare None (Some (lit "blue")) (Some (lit "shirt")) in
  let w1 := exec (confirmDelete item (Responded {| status := 401; payload := tt |})) w in
  let w2 := exec (handlePhotoUpload true (Some (lit "file:///p.jpg")) (lit "Tee")
                    (Responded {| status := 401; payload := lit "" |})) w in
  let w3 := exec (generateFromPrompt (lit "brunch") None
                    (Responded {| status := 401;
                                  payload := JValue {| error := None;
                                                       selected_items := None;
                                                       overall_reason := None;
                                                       weather_summary := None;
                                                       weather_warning := None |} |})
                    true true) w in
  (token w1 = Some (lit "abc") /\ storage w1 !! "token"%string = Some (lit "abc")
   /\ nav_state w1 = Authenticated
   /\ alerts (trace w1) = [(lit "Delete failed", StringOf (Error (lit "Delete failed")))])
  /\ (token w2 = Some (lit "abc") /\ storage w2 !! "token"%string = Some (lit "abc")
      /\ nav_state w2 = Authenticated
      /\ alerts (trace w2) = [(lit "Error", StringOf (Error (lit "Upload failed")))])
  /\ (token w3 = Some (lit "abc") /\ storage w3 !! "token"%string = Some (lit "abc")
      /\ nav_state w3 = Authenticated
      /\ alerts (trace w3) = [(lit "Failed", StringOf (Error (lit "Request failed")))]).
Proof. cbv zeta. repeat split; vm_compute; reflexivity. Qed.

(** ** Wardrobe in selection mode *)

Lemma handleItemPress_selection (item : WardrobeItem) (w : World) :
  exec (handleItemPress true item) w =
    {| token := token w; storage := storage w;
       trace := trace w ++ [Navigate Recommendations
                              (SelectedWardrobeItem (Some item))] |}.
Proof. reflexivity. Qed.

(** In selection mode the screen renders the back button and the grid,
    nothing else. *)
Lemma wardrobe_controls_selection (loading : bool) (items : list WardrobeItem)
    (c : Control) :
  c ∈ wardrobe_controls true loading items ->
  c = BackButton \/ exists item, c = GridItem item /\ item ∈ items.
Proof.
  unfold wardrobe_controls. cbn [negb]. rewrite app_nil_r. cbn [app].
  intros [->|H]%elem_of_cons; [by left|right].
  destruct loading; [by apply elem_of_nil in H|].
  apply list_elem_of_fmap in H as (item & -> & Hin). eauto.
Qed.

(** The request that follows the arrival of the picked item carries its
    image URL as [base_image_url]. *)
Lemma onSelectedWardrobeItem_request (item : WardrobeItem) (prompt : jsstring)
    (coords : option Coords) (net : Fetched (Json OutfitData))
    (mounted_then mounted_last : bool) (w : World) :
  exists rq,
    requests (trace (exec (onSelectedWardrobeItem (Some item) prompt coords net
                             mounted_then mounted_last) w))
      = requests (trace w) ++ [rq]
    /\ url rq = endpoint OpRecommendFromPrompt
    /\ json_member "base_image_url" rq = Some (JStr (image_url item)).
Proof.
  exists {| method := POST; url := endpoint OpRecommendFromPrompt;
            headers := [("Authorization"%string, bearer (token w));
                        ("Content-Type"%string, lit "application/json")];
            body := JsonBody ([("prompt"%string, JStr prompt);
                               ("base_image_url"%string, JStr (image_url item))]
                              ++ coords_json coords) |}.
  split; [|split; reflexivity].
  unfold onSelectedWardrobeItem, handleWardrobeSelection, afterFetch, showResult.
  destruct net as [|[st [| |d]]], mounted_then, mounted_last; run;
    try (destruct (ok _); run); read_trace; reflexivity.
Qed.

(** C8: in selection mode a tap on any item issues exactly one
    navigation, to the recommendation screen with that item as
    parameter, and the request that follows there names the item's image
    as base image; the add-item button is not rendered; and no control
    that is rendered sends a request or navigates to the item-detail or
    add-item screen, where deleting and adding happen. *)
Theorem selection_mode_only_picks (params : option (option bool))
    (loading : bool) (items : list WardrobeItem) (w : World) :
  isSelectionMode params = true ->
  let sel := isSelectionMode params in
  (forall item,
     exec (handleItemPress sel item) w =
       {| token := token w; storage := storage w;
          trace := trace w ++ [Navigate Recommendations
                                 (SelectedWardrobeItem (Some item))] |})
  /\ (forall item prompt coords net m1 m2 w1, exists rq,
        requests (trace (exec (onSelectedWardrobeItem (Some item) prompt coords
                                 net m1 m2) w1)) = requests (trace w1) ++ [rq]
        /\ json_member "base_image_url" rq = Some (JStr (image_url item)))
  /\ (AddItemButton ∉ wardrobe_controls sel loading items)
  /\ (SignOutButton ∉ wardrobe_controls sel loading items)
  /\ (forall c, c ∈ wardrobe_controls sel loading items ->
        let w' := exec (press sel c) w in
        requests (trace w') = requests (trace w)
        /\ token w' = token w /\ storage w' = storage w
        /\ (ItemDetail ∉ drop (List.length (navigations (trace w)))
                              (navigations (trace w')))
        /\ (AddItem ∉ drop (List.length (navigations (trace w)))
                           (navigations (trace w')))).
Proof.
  intros ->. cbv zeta.
  split; [intros item; apply handleItemPress_selection|].
  split.
  { intros item prompt coords net m1 m2 w1.
    destruct (onSelectedWardrobeItem_request item prompt coords net m1 m2 w1)
      as (rq & H1 & _ & H3). eauto. }
  split; [|split].
  - intros [Hc | (item & Hc & _)]%wardrobe_controls_selection; discriminate Hc.
  - intros [Hc | (item & Hc & _)]%wardrobe_controls_selection; discriminate Hc.
  - intros c [-> | (item & -> & _)]%wardrobe_controls_selection;
      cbn [press]; run; unfold handleItemPress; run; cbn [trace token storage];
      read_trace; rewrite ?app_nil_r; rewrite ?drop_app_length;
      (repeat split; try done);
      rewrite ?drop_all; try apply not_elem_of_nil;
      intros ?%list_elem_of_singleton; discriminate.
Qed.

Lemma selection_mode_only_picks_witness :
  let shirt := bare None (Some (lit "blue")) (Some (lit "shirt")) in
  trace (exec (handleItemPress (isSelectionMode (Some (Some true))) shirt)
           (signed_in (lit "abc")))
  = [Navigate Recommendations (SelectedWardrobeItem (Some shirt))].
Proof.
  cbv zeta.
  destruct (selection_mode_only_picks (Some (Some true)) false
              [bare None (Some (lit "blue")) (Some (lit "shirt"))]
              (signed_in (lit "abc")) eq_refl) as (H & _).
  cbv zeta in H. rewrite H. reflexivity.
Defined.

(** Outside selection mode the same tap opens the item-detail screen and
    the add-item button is rendered. *)
Example browsing_mode_opens_detail :
  let shirt := bare None (Some (lit "blue")) (Some (lit "shirt")) in
  navigations (trace (exec (handleItemPress (isSelectionMode (Some (Some false)))
                              shirt) signed_out)) = [ItemDetail]
  /\ AddItemButton ∈ wardrobe_controls (isSelectionMode None) false [shirt].
Proof.
  cbv zeta. split; [reflexivity|].
  cbn. repeat constructor.
Qed.

(** ** Uploading an item *)

(** The name put in the form is never empty and never white space
    only. *)
Lemma upload_name_filled (name : jsstring) :
  let sent := or_else (trim name) (lit "Unnamed") in
  sent = (if nonempty (trim name) then trim name else lit "Unnamed")
  /\ nonempty sent = true
  /\ whitespace_only sent = false.
Proof.
  cbv zeta. unfold or_else.
  destruct (nonempty (trim name)) eqn:E.
  - split; [reflexivity|]. split; [exact E|]. by apply trim_not_blank.
  - repeat split.
Qed.

Lemma handlePhotoUpload_request (uri name : jsstring) (net : Fetched jsstring)
    (w : World) :
  requests (trace (exec (handlePhotoUpload true (Some uri) name net) w)) =
    requests (trace w)
    ++ [{| method := POST; url := endpoint OpAddItem;
           headers := [("Authorization"%string, bearer (token w))];
           body := Multipart
                     [("file"%string, PFile uri (lit "image/jpeg") (lit "photo.jpg"));
                      ("name"%string, PText (or_else (trim name) (lit "Unnamed")))] |}].
Proof.
  unfold handlePhotoUpload.
  destruct net as [|r]; run; try (destruct (ok r); run); read_trace; reflexivity.
Qed.

(** C10: an upload sends exactly one request, to /add-item, whose name
    field is the trimmed name, or the literal "Unnamed" when the name
    trims to the empty string; in both cases the field is neither empty
    nor white space only.  Without camera permission or without a
    picture nothing is sent. *)
Theorem upload_name_never_blank (granted : bool) (shot : option jsstring)
    (name : jsstring) (net : Fetched jsstring) (w : World) :
  let w' := exec (handlePhotoUpload granted shot name net) w in
  let sent := if nonempty (trim name) then trim name else lit "Unnamed" in
  (exists rqs,
     requests (trace w') = requests (trace w) ++ rqs
     /\ List.length rqs = (if granted && bool_decide (is_Some shot) then 1 else 0)%nat
     /\ Forall (fun rq => url rq = endpoint OpAddItem
                          /\ form_text "name" rq = Some sent) rqs)
  /\ nonempty sent = true
  /\ whitespace_only sent = false.
Proof.
  cbv zeta.
  destruct (upload_name_filled name) as (Hsent & Hne & Hws).
  rewrite <- Hsent. split; [|by split].
  destruct granted; [destruct shot as [uri|]|].
  - rewrite handlePhotoUpload_request. eexists. split; [reflexivity|].
    split; [reflexivity|]. by repeat constructor.
  - exists []. unfold handlePhotoUpload. run.
    rewrite app_nil_r. by repeat split.
  - exists []. unfold handlePhotoUpload. run. read_trace. by repeat split.
Qed.

(** A name of spaces goes out as "Unnamed"; a padded name goes out
    trimmed. *)
Example upload_blank_name :
  List.map (form_text "name")
    (requests (trace (exec (handlePhotoUpload true (Some (lit "file:///p.jpg"))
                              (lit "   ") NetworkFailure) (signed_in (lit "abc")))))
  = [Some (lit "Unnamed")]
  /\ List.map (form_text "name")
       (requests (trace (exec (handlePhotoUpload true (Some (lit "file:///p.jpg"))
                                 (lit " Tee ")
                                 (Responded {| status := 200; payload := lit "" |}))
                           (signed_in (lit "abc")))))
     = [Some (lit "Tee")].
Proof. split; vm_compute; reflexivity. Qed.

(** * Further properties of the code *)

(** ** Labels *)

(** X1: whatever the item holds, its label is not the empty string: a
    kept name is non-empty, and an empty text falls back to "Item". *)
Theorem label_never_empty (item : WardrobeItem) : nonempty (label item) = true.
Proof.
  unfold label, or_else at 1.
  destruct (nonempty (field_or (name item) _)) eqn:E; [exact E|reflexivity].
Qed.

(** X2: the label of an item without a usable name has no white space
    at either end (a name, by contrast, is shown as it is). *)
Theorem label_unnamed_is_trimmed (item : WardrobeItem) :
  truthy (name item) = false -> trim (label item) = label item.
Proof.
  intros H. rewrite label_unnamed by exact H. unfold or_else.
  destruct (nonempty (trim _)); [apply trim_idem|vm_compute; reflexivity].
Qed.

Lemma label_unnamed_is_trimmed_witness :
  trim (label (bare None (Some (lit " navy ")) (Some (lit "coat  "))))
  = label (bare None (Some (lit " navy ")) (Some (lit "coat  "))).
Proof. apply label_unnamed_is_trimmed. reflexivity. Defined.

(** A name of spaces is kept as the label. *)
Example label_blank_name_kept :
  label (bare (Some (lit "  ")) (Some (lit "red")) (Some (lit "hat"))) = lit "  ".
Proof. vm_compute. reflexivity. Qed.

(** ** Stylist notes *)

Section Fragments.

Implicit Types (s p : jsstring) (c : N).

Lemma trimStart_suffix s : exists pre, s = pre ++ trimStart s.
Proof.
  induction s as [|c s [pre IH]]; [by exists []|]. simpl.
  destruct (is_space c); [|by exists []].
  exists (c :: pre). simpl. by rewrite <- IH.
Qed.

(** Trimming keeps a contiguous part of the string. *)
Lemma trim_infix s : exists pre post, s = pre ++ trim s ++ post.
Proof.
  unfold trim, trimEnd.
  destruct (trimStart_suffix s) as [pre E].
  destruct (trimStart_suffix (rev (trimStart s))) as [q Eq].
  exists pre, (rev q). rewrite E at 1. f_equal.
  rewrite <- rev_app_distr, <- Eq, rev_involutive. reflexivity.
Qed.

Lemma forallb_trim (f : N -> bool) s : forallb f s = true -> forallb f (trim s) = true.
Proof.
  destruct (trim_infix s) as (pre & post & E). rewrite E at 1.
  rewrite !forallb_app. intros H.
  apply andb_prop in H as [_ H]. by apply andb_prop in H as [H _].
Qed.

Lemma split_free_of_stops s : Forall (fun p => free_of_stops p = true) (split s).
Proof.
  induction s as [|c s IH]; simpl; [by repeat constructor|].
  destruct (is_stop c) eqn:E; [by constructor|].
  destruct (split s) as [|p ps]; [by repeat constructor; simpl; rewrite E|].
  inversion IH as [|? ? Hp Hps]; subst.
  constructor; [|exact Hps]. simpl. by rewrite E, Hp.
Qed.

Lemma split_keeps (f : N -> bool) s :
  forallb f s = true -> Forall (fun p => forallb f p = true) (split s).
Proof.
  induction s as [|c s IH]; simpl; [by repeat constructor|].
  intros [Hc Hs]%andb_prop. specialize (IH Hs).
  destruct (is_stop c); [by constructor|].
  destruct (split s) as [|p ps]; [by repeat constructor; simpl; rewrite Hc|].
  inversion IH as [|? ? Hp Hps]; subst.
  constructor; [|exact Hps]. simpl. by rewrite Hc, Hp.
Qed.

Lemma squash_plain (b : bool) s : plain_spaces (squash b s) = true.
Proof.
  revert b. induction s as [|c s IH]; intros b; simpl; [reflexivity|].
  destruct (is_space c) eqn:E.
  - destruct b; [apply IH|]. simpl. apply IH.
  - simpl. rewrite E. simpl. apply IH.
Qed.

Lemma squash_blank (b : bool) s :
  whitespace_only s = true -> squash b s = if b then [] else match s with [] => [] | _ => [32] end.
Proof.
  revert b. induction s as [|c s IH]; intros b; simpl; [by destruct b|].
  intros [Hc Hs]%andb_prop. rewrite Hc.
  destruct b; rewrite (IH true Hs); reflexivity.
Qed.

Lemma note_fragments_in s p :
  p ∈ note_fragments s ->
  exists q, q ∈ split (trim (replace_ws s)) /\ p = trim q /\ nonempty p = true.
Proof.
  unfold note_fragments. intros Hp.
  apply list_elem_of_In, filter_In in Hp as [Hin Hne].
  apply in_map_iff in Hin as [q [<- Hq]].
  exists q. by rewrite list_elem_of_In.
Qed.

End Fragments.

(** X3: no stylist note contains a full stop or a semicolon, and the
    only white space inside a note is the plain space: tabs, line breaks
    and the like of the rationale never reach the screen. *)
Theorem reasonPoints_clean (s : jsstring) :
  Forall (fun p => free_of_stops p = true /\ plain_spaces p = true) (reasonPoints s).
Proof.
  rewrite reasonPoints_take. apply Forall_take, Forall_forall.
  intros p (q & Hq & -> & _)%note_fragments_in. split.
  - apply forallb_trim.
    pose proof (split_free_of_stops (trim (replace_ws s))) as H.
    rewrite Forall_forall in H. by apply H.
  - apply forallb_trim.
    assert (plain_spaces (trim (replace_ws s)) = true) as Hplain
      by apply forallb_trim, squash_plain.
    pose proof (split_keeps _ _ Hplain) as H.
    rewrite Forall_forall in H. by apply H.
Qed.

(** X4: a rationale of white space only (tabs and line breaks included)
    gives no stylist note at all. *)
Theorem reasonPoints_blank (s : jsstring) :
  whitespace_only s = true -> reasonPoints s = [].
Proof.
  intros H. rewrite reasonPoints_take. unfold note_fragments, replace_ws.
  rewrite (squash_blank false s H). by destruct s.
Qed.

Lemma reasonPoints_blank_witness : reasonPoints [9; 32; 10; 160] = [].
Proof. apply reasonPoints_blank. reflexivity. Defined.

(** Stops alone give no note either. *)
Example reasonPoints_only_stops : reasonPoints (lit " . ; .. ") = [].
Proof. vm_compute. reflexivity. Qed.

(** ** Signing in, signing out and starting again *)

(** Run a handler to the end, splitting on every input it inspects. *)
Ltac crunch :=
  repeat (run;
          match goal with
          | |- context [match ?x with _ => _ end] => is_var x; destruct x
          | |- context [match ?f ?x with _ => _ end] => is_var x; destruct x
          | |- context [if ?b then _ else _] => destruct b eqn:?
          end);
  run.

(** X5: a response whose body holds a non-empty access_token signs the
    user in, for sign-in and sign-up alike and whatever the HTTP status:
    the token is held in memory and under the storage key "token", the
    authenticated screens are shown, and no alert is raised. *)
Theorem access_token_signs_in (username password tok : jsstring) (st : N)
    (w : World) :
  nonempty tok = true ->
  let net := Responded {| status := st;
                          payload := JValue {| access_token := Some tok |} |} in
  Forall (fun w' => token w' = Some tok
                    /\ storage w' !! "token"%string = Some tok
                    /\ nav_state w' = Authenticated
                    /\ alerts (trace w') = alerts (trace w))
         [exec (signIn username password net) w;
          exec (signUp username password net) w].
Proof.
  intros H. cbv zeta. unfold signIn, signUp, nav_state.
  repeat constructor; run; rewrite H; run; cbn [truthy]; rewrite ?H;
    try reflexivity; try apply lookup_insert_eq; by read_trace.
Qed.

Lemma access_token_signs_in_witness :
  token (exec (signIn (lit "ann") (lit "pw")
                 (Responded {| status := 200;
                               payload := JValue {| access_token := Some (lit "t0k") |} |}))
           signed_out) = Some (lit "t0k").
Proof.
  pose proof (access_token_signs_in (lit "ann") (lit "pw") (lit "t0k") 200
                signed_out eq_refl) as H.
  cbv zeta in H. apply Forall_cons in H as [(H & _) _]. exact H.
Defined.

(** X6: a session survives a restart.  After a successful sign-in, an
    app started again on the same storage reads the token back at boot
    and shows the authenticated screens. *)
Theorem session_survives_restart (username password tok : jsstring) (st : N)
    (w : World) :
  nonempty tok = true ->
  let w' := exec (signIn username password
                    (Responded {| status := st;
                                  payload := JValue {| access_token := Some tok |} |})) w in
  token (exec boot (restart w')) = Some tok
  /\ nav_state (exec boot (restart w')) = Authenticated.
Proof.
  intros H. cbv zeta. apply boot_restores; [|exact H].
  unfold restart. cbn [storage]. unfold signIn. run. rewrite H. run.
  apply lookup_insert_eq.
Qed.

Lemma session_survives_restart_witness :
  nav_state (exec boot (restart (exec (signIn (lit "ann") (lit "pw")
      (Responded {| status := 200;
                    payload := JValue {| access_token := Some (lit "t0k") |} |}))
      signed_out))) = Authenticated.
Proof.
  apply (session_survives_restart (lit "ann") (lit "pw") (lit "t0k") 200
           signed_out eq_refl).
Defined.

(** X7: signing out survives a restart too: whatever the session was,
    after [signOut] an app started again finds no token and shows the
    login screen. *)
Theorem sign_out_survives_restart (w : World) :
  let w' := exec boot (restart (exec signOut w)) in
  token w' = None /\ nav_state w' = Unauthenticated
  /\ storage w' !! "token"%string = None.
Proof.
  cbv zeta. rewrite boot_without_token.
  - repeat split. unfold restart. cbn [storage]. apply signOut_clears.
  - unfold restart. cbn [storage]. apply signOut_clears.
Qed.

(** ** Exceptions *)

Section NeverThrows.

Context {A B : Type}.

Lemma nt_ret (a : A) : never_throws (ret a).
Proof. intros w. by exists a. Qed.

Lemma nt_bind (m : M A) (k : A -> M B) :
  never_throws m -> (forall a, never_throws (k a)) -> never_throws (bind m k).
Proof.
  intros Hm Hk w. unfold bind. destruct (Hm w) as [a Ha].
  destruct (m w) as [[a'|e] w1]; cbn [fst] in Ha; [|discriminate Ha].
  apply Hk.
Qed.

(** A handler that cannot throw makes the whole [try] safe, whatever
    the body does. *)
Lemma nt_try_catch (m : M A) (h : JsError -> M A) :
  (forall e, never_throws (h e)) -> never_throws (try_catch m h).
Proof.
  intros Hh w. unfold try_catch. destruct (m w) as [[a|e] w1]; [by exists a|].
  apply Hh.
Qed.

Lemma nt_try_finally (m : M A) (f : M unit) :
  never_throws m -> never_throws f -> never_throws (try_finally m f).
Proof.
  intros Hm Hf w. unfold try_finally. destruct (Hm w) as [a Ha].
  destruct (m w) as [r w1]; cbn [fst] in Ha. subst r.
  destruct (Hf w1) as [u Hu]. destruct (f w1) as [[u'|e] w2]; [by exists a|].
  discriminate Hu.
Qed.

End NeverThrows.

Lemma nt_emit (ev : Event) : never_throws (emit ev).
Proof. intros w. by exists tt. Qed.

Lemma nt_when (b : bool) (m : M unit) : never_throws m -> never_throws (when b m).
Proof. intros H. destruct b; [exact H|apply nt_ret]. Qed.

Lemma nt_setToken (t : option jsstring) : never_throws (setToken t).
Proof. intros w. by exists tt. Qed.

Lemma nt_removeItem (k : string) : never_throws (removeItem k).
Proof. intros w. by exists tt. Qed.

Create HintDb safe.
#[local] Hint Resolve nt_ret nt_emit nt_when nt_setToken nt_removeItem : safe.

Ltac safe :=
  repeat first
    [ apply nt_try_catch; intros ?
    | apply nt_try_finally
    | apply nt_when
    | apply nt_emit
    | apply nt_bind; [|intros ?]
    | match goal with
      | |- never_throws (if ?b then _ else _) => destruct b
      | |- never_throws (match ?x with _ => _ end) => destruct x
      end
    | solve [auto with safe] ].


(** ** Requests *)

Lemma item_updates_app (t u : list Event) :
  item_updates (t ++ u) = item_updates t ++ item_updates u.
Proof. apply omap_app. Qed.

Lemma navigation_calls_app (t u : list Event) :
  navigation_calls (t ++ u) = navigation_calls t ++ navigation_calls u.
Proof. apply omap_app. Qed.

Lemma go_backs_app (t u : list Event) : go_backs (t ++ u) = (go_backs t + go_backs u)%nat.
Proof. unfold go_backs. by rewrite List.filter_app, length_app. Qed.

#[local] Hint Rewrite item_updates_app navigation_calls_app go_backs_app : trace_db.

Ltac read_all :=
  cbn [snd fst token storage trace];
  autorewrite with trace_db;
  cbn [requests alerts navigations item_updates navigation_calls go_backs
       omap app List.filter List.length];
  rewrite ?app_nil_r, ?Nat.add_0_r.


(** X10: every request of a handler that needs a session carries the
    header Authorization with "Bearer " and the token held when the
    handler starts; the sign-in and sign-up requests carry no such
    header. *)
Theorem run_call_authorization (c : ApiCall) (w : World) :
  let sent := drop (List.length (requests (trace w)))
                   (requests (trace (exec (run_call c) w))) in
  Forall (fun rq => header "Authorization" rq =
                      if authenticated_call c then Some (bearer (token w))
                      else None) sent.
Proof.
  cbv zeta.
  destruct c; cbn [run_call authenticated_call];
    unfold signIn, signUp, fetchItems, confirmDelete, handlePhotoUpload,
      generateFromPrompt, handleWardrobeSelection, handleLaunchCamera,
      afterFetch, showResult;
    crunch; read_all; rewrite ?drop_app_length, ?drop_all;
    by repeat constructor.
Qed.

(** A token of "abc" goes out as "Bearer abc". *)
Example authorization_example :
  List.map (header "Authorization")
    (requests (trace (exec (run_call (CallFetchItems NetworkFailure true true))
                        (signed_in (lit "abc")))))
  = [Some (lit "Bearer abc")].
Proof. vm_compute. reflexivity. Qed.

(** ** The item list *)

(** X11: only the status 401 ends the session in [fetchItems]: with any
    other status, and when the request fails outright, token and storage
    are as before. *)
Theorem fetchItems_keeps_session_unless_401 (net : Fetched (Json ItemsData))
    (focused_then focused_last : bool) (w : World) :
  (forall res, net = Responded res -> status res <> 401) ->
  let w' := exec (fetchItems net focused_then focused_last) w in
  token w' = token w /\ storage w' = storage w /\ nav_state w' = nav_state w.
Proof.
  intros Hst. cbv zeta. unfold fetchItems, nav_state.
  destruct net as [|res].
  - crunch; by repeat split.
  - specialize (Hst res eq_refl). apply N.eqb_neq in Hst.
    run. rewrite Hst. crunch; by repeat split.
Qed.

Lemma fetchItems_keeps_session_unless_401_witness :
  token (exec (fetchItems (Responded {| status := 500; payload := JMalformed |})
                 true true) (signed_in (lit "abc"))) = Some (lit "abc").
Proof.
  apply (fetchItems_keeps_session_unless_401
           (Responded {| status := 500; payload := JMalformed |}) true true
           (signed_in (lit "abc"))).
  intros res [= <-]. discriminate.
Defined.

(** X12: with a status other than 401 the list shown is read off the
    body whatever the status: an array or the [items] of an object is
    shown, an object without [items] shows the empty list, and a screen
    that lost focus is not updated.  A body that is not JSON raises
    "Error fetching items"; a null body does so only when the screen is
    focused. *)
Theorem fetchItems_shows (res : Response (Json ItemsData))
    (focused_then focused_last : bool) (w : World) :
  status res <> 401 ->
  let w' := exec (fetchItems (Responded res) focused_then focused_last) w in
  item_updates (trace w') =
    item_updates (trace w)
    ++ (if focused_then
        then match listed (payload res) with Some l => [l] | None => [] end
        else [])
  /\ alerts (trace w') =
       alerts (trace w)
       ++ (match payload res with
           | JMalformed => [(lit "Error fetching items", NoText)]
           | JNull => if focused_then then [(lit "Error fetching items", NoText)]
                      else []
           | JValue _ => []
           end).
Proof.
  intros Hst%N.eqb_neq. cbv zeta. unfold fetchItems. run. rewrite Hst.
  destruct res as [st [| |[l|[l|]]]], focused_then, focused_last;
    run; read_all; by split.
Qed.

Lemma fetchItems_shows_witness :
  item_updates (trace (exec (fetchItems
      (Responded {| status := 500; payload := JValue (ItemsObject None) |})
      true true) (signed_in (lit "abc")))) = [[]].
Proof.
  pose proof (fetchItems_shows
                {| status := 500; payload := JValue (ItemsObject None) |}
                true true (signed_in (lit "abc"))) as H.
  cbv zeta in H. destruct H as [H _]; [discriminate|]. exact H.
Defined.

(** ** Pending flags *)

(** X13: a pending flag that was raised is lowered again on every path,
    success, failure status, unparsable body and failed request alike:
    the last effect of [fetchItems] on a focused screen, of a confirmed
    delete, of an upload and of each recommendation handler on a mounted
    screen is the reset of its flag. *)
Theorem pending_flags_are_reset (w : World) :
  (forall net f1, last (trace (exec (fetchItems net f1 true) w))
                  = Some (SetLoading false))
  /\ (forall item net, last (trace (exec (confirmDelete item net) w))
                       = Some (SetDeleting false))
  /\ (forall uri name net,
        last (trace (exec (handlePhotoUpload true (Some uri) name net) w))
        = Some (SetUploading false))
  /\ (forall prompt coords net m1,
        last (trace (exec (generateFromPrompt prompt coords net m1 true) w))
        = Some (SetLoading false))
  /\ (forall item prompt coords net m1,
        last (trace (exec (handleWardrobeSelection item prompt coords net m1 true) w))
        = Some (SetLoading false))
  /\ (forall uri prompt coords net m1,
        last (trace (exec (handleLaunchCamera true (Some uri) prompt coords net
                             m1 true) w))
        = Some (SetLoading false)).
Proof.
  repeat split; intros;
    unfold fetchItems, confirmDelete, handlePhotoUpload, generateFromPrompt,
      handleWardrobeSelection, handleLaunchCamera, afterFetch, showResult;
    crunch; apply last_snoc.
Qed.

(** ** Outcomes *)

(** X14: a confirmed delete asks the backend to delete the item that is
    shown, by its image URL, and leaves the detail screen exactly when
    the answer has a 2xx status; any other answer, and a failed request,
    raise "Delete failed" and stay on the screen. *)
Theorem confirmDelete_outcome (item : WardrobeItem) (net : Fetched unit)
    (w : World) :
  let w' := exec (confirmDelete item net) w in
  let failure := match net with
                 | NetworkFailure => Some NetworkError
                 | Responded res =>
                     if ok res then None else Some (Error (lit "Delete failed"))
                 end in
  requests (trace w') =
    requests (trace w)
    ++ [{| method := DELETE; url := endpoint OpDeleteItem;
           headers := [("Authorization"%string, bearer (token w))];
           body := Multipart [("image_url"%string, PText (image_url item))] |}]
  /\ go_backs (trace w') =
       (go_backs (trace w) + match failure with Some _ => 0 | None => 1 end)%nat
  /\ alerts (trace w') =
       alerts (trace w)
       ++ match failure with
          | Some e => [(lit "Delete failed", StringOf e)]
          | None => []
          end.
Proof.
  cbv zeta. unfold confirmDelete.
  destruct net as [|res]; run; [|destruct (ok res)]; run; read_all;
    by repeat split.
Qed.

(** X15: an upload ends in "Saved!" and a step back exactly when the
    answer has a 2xx status.  Otherwise the alert "Error" carries the
    text the server sent, or "Upload failed" when that text is empty,
    and the screen stays. *)
Theorem handlePhotoUpload_outcome (uri name : jsstring) (net : Fetched jsstring)
    (w : World) :
  let w' := exec (handlePhotoUpload true (Some uri) name net) w in
  let failure := match net with
                 | NetworkFailure => Some NetworkError
                 | Responded r =>
                     if ok r then None
                     else Some (Error (if nonempty (payload r) then payload r
                                       else lit "Upload failed"))
                 end in
  go_backs (trace w') =
    (go_backs (trace w) + match failure with Some _ => 0 | None => 1 end)%nat
  /\ alerts (trace w') =
       alerts (trace w)
       ++ match failure with
          | Some e => [(lit "Error", StringOf e)]
          | None => [(lit "Saved!", Text (lit "Item added successfully."))]
          end.
Proof.
  cbv zeta. unfold handlePhotoUpload, or_else.
  destruct net as [|r]; run; [|destruct (ok r)]; run; read_all;
    by repeat split.
Qed.

(** Without permission the camera is not opened and only the alert is
    raised; a cancelled camera leaves no effect at all. *)
Lemma handlePhotoUpload_not_started (shot : option jsstring) (name : jsstring)
    (net : Fetched jsstring) (w : World) :
  exec (handlePhotoUpload false shot name net) w =
    {| token := token w; storage := storage w;
       trace := trace w ++ [Alert (lit "Camera permission required") NoText []] |}
  /\ exec (handlePhotoUpload true None name net) w = w.
Proof. unfold handlePhotoUpload. run. split; [reflexivity|by destruct w]. Qed.

(** X16: on a mounted screen each of the three recommendation handlers
    either opens the result screen once, with the outfit of the body (the
    empty outfit when [selected_items] is missing) and empty texts for
    missing texts, and clears the prompt; or it raises one alert with the
    exception and opens nothing.  It succeeds exactly when the status is
    2xx and the body is a JSON value other than null; a failure status
    reports the body's [error], or "Request failed" when there is
    none. *)
Theorem recommendation_outcome (item : WardrobeItem) (uri prompt : jsstring)
    (coords : option Coords) (net : Fetched (Json OutfitData)) (w : World) :
  Forall (fun '(w', title) =>
            navigation_calls (trace w') =
              navigation_calls (trace w)
              ++ match recommendation_failure net, net with
                 | None, Responded {| payload := JValue d |} =>
                     [(RecommendationResult, ResultParam (result_params d))]
                 | _, _ => []
                 end
            /\ alerts (trace w') =
                 alerts (trace w)
                 ++ match recommendation_failure net with
                    | Some e => [(title, StringOf e)]
                    | None => []
                    end)
    [(exec (generateFromPrompt prompt coords net true true) w, lit "Failed");
     (exec (handleWardrobeSelection item prompt coords net true true) w, lit "Error");
     (exec (handleLaunchCamera true (Some uri) prompt coords net true true) w,
      lit "Failed")].
Proof.
  unfold generateFromPrompt, handleWardrobeSelection, handleLaunchCamera,
    afterFetch, showResult, recommendation_failure, result_params.
  destruct net as [|[st [| |d]]]; run;
    try (destruct (ok _)); run;
    try (destruct d as [e [items|] o s wn]); run;
    (repeat constructor; read_all; reflexivity).
Qed.

(** X17: when the screen is gone by the time the answer arrives, a
    recommendation handler does nothing more: the request is its last
    effect, so there is no alert, no navigation and no state update,
    whatever the answer. *)
Theorem unmounted_screen_is_left_alone (item : WardrobeItem)
    (uri prompt : jsstring) (coords : option Coords)
    (net : Fetched (Json OutfitData)) (w : World) :
  (exists rq,
     trace (exec (generateFromPrompt prompt coords net false false) w)
     = trace w ++ [SetLoading true; Fetch rq])
  /\ (exists rq,
        trace (exec (handleWardrobeSelection item prompt coords net false false) w)
        = trace w ++ [SetCameraModalVisible false; SetLoading true; Fetch rq])
  /\ (exists rq,
        trace (exec (handleLaunchCamera true (Some uri) prompt coords net
                       false false) w)
        = trace w ++ [SetCameraModalVisible false; SetLoading true; Fetch rq]).
Proof.
  unfold generateFromPrompt, handleWardrobeSelection, handleLaunchCamera,
    afterFetch.
  destruct net as [|res]; run;
    (repeat split; eexists; rewrite <- ?app_assoc; reflexivity).
Qed.

(** ** The login form, filled in *)



(** ** The result screen *)



(** ** Keys *)

Section Keys.

Lemma digits_no_dash (u : Decimal.uint) : forallb (fun c => negb (c =? 45)) (digits u) = true.
Proof. induction u; simpl; auto. Qed.

Lemma digits_inj (u v : Decimal.uint) : digits u = digits v -> u = v.
Proof.
  revert v. induction u; destruct v; simpl; intros H;
    try discriminate H; try reflexivity;
    injection H as H; f_equal; by apply IHu.
Qed.

Lemma index_text_inj (i j : nat) : index_text i = index_text j -> i = j.
Proof.
  unfold index_text. intros H%digits_inj.
  rewrite <- (Unsigned.of_to i), <- (Unsigned.of_to j). by rewrite H.
Qed.

(** Two strings that end in a dash-free tail after a dash have the same
    tail. *)
Lemma tail_after_last_dash (a b d e : jsstring) :
  forallb (fun c => negb (c =? 45)) d = true ->
  forallb (fun c => negb (c =? 45)) e = true ->
  a ++ 45 :: d = b ++ 45 :: e -> d = e.
Proof.
  intros Hd He H. apply (f_equal (@rev N)) in H.
  rewrite !rev_app_distr in H. simpl in H. rewrite <- !app_assoc in H. simpl in H.
  assert (forallb (fun c => negb (c =? 45)) (rev d) = true) as Hd'.
  { rewrite forallb_forall in *. intros c Hc. apply Hd. by apply in_rev. }
  assert (forallb (fun c => negb (c =? 45)) (rev e) = true) as He'.
  { rewrite forallb_forall in *. intros c Hc. apply He. by apply in_rev. }
  rewrite <- (rev_involutive d), <- (rev_involutive e). f_equal.
  revert H Hd' He'. generalize (rev d) (rev e) (rev a) (rev b).
  clear. intros x. induction x as [|c x IH]; intros [|c' y] ra rb; simpl; intros H Hx Hy.
  - reflexivity.
  - injection H as <- _. discriminate Hy.
  - injection H as -> _. discriminate Hx.
  - injection H as -> H. f_equal.
    apply andb_prop in Hx as [_ Hx]. apply andb_prop in Hy as [_ Hy].
    by apply (IH y ra rb).
Qed.

Lemma item_key_inj (i j : nat) (a b : WardrobeItem) :
  item_key i a = item_key j b -> i = j.
Proof.
  unfold item_key. intros H. apply index_text_inj.
  apply (tail_after_last_dash (image_url a) (image_url b));
    [apply digits_no_dash | apply digits_no_dash | exact H].
Qed.

Lemma reason_key_inj (i j : nat) : reason_key i = reason_key j -> i = j.
Proof. unfold reason_key. intros H%app_inv_head. by apply index_text_inj. Qed.

Lemma NoDup_imap_index {A B} (f : nat -> A -> B) (l : list A) :
  (forall i j a b, f i a = f j b -> i = j) -> NoDup (imap f l).
Proof.
  intros Hf. apply NoDup_alt. intros i j x Hi Hj.
  rewrite list_lookup_imap in Hi, Hj.
  destruct (l !! i) as [a|]; [|discriminate Hi].
  destruct (l !! j) as [b|]; [|discriminate Hj].
  simpl in *. injection Hi as <-. injection Hj as Hj. symmetry. by apply (Hf j i b a).
Qed.

End Keys.

(** X20: the keys of a list are pairwise distinct, for the wardrobe
    grid, the outfit cards and the stylist notes alike, also when two
    items have the same image URL (or the URL itself ends in a dash and
    digits). *)
Theorem keys_are_distinct (items : list WardrobeItem) (p : ResultParams) :
  NoDup (grid_keys items)
  /\ NoDup (card_keys (renderResult p))
  /\ NoDup (note_keys (renderResult p)).
Proof.
  split; [apply NoDup_imap_index, item_key_inj|].
  unfold renderResult. destruct (List.length (outfit p) =? 0)%nat.
  { split; constructor. }
  cbn [card_keys note_keys]. split.
  - rewrite fmap_imap. apply (NoDup_imap_index (fun i a => item_key i a)), item_key_inj.
  - cbv zeta. destruct (0 <? List.length (reasonPoints (overallReason p)))%nat;
      [|constructor].
    rewrite fmap_imap. apply (NoDup_imap_index (fun i _ => reason_key i)).
    intros i j _ _. apply reason_key_inj.
Qed.

(** Two cards for the same picture still differ in their keys. *)
Example keys_same_url :
  grid_keys [bare None None None; bare None None None]
  = [lit "https://example.test/i.jpg-0"; lit "https://example.test/i.jpg-1"].
Proof. vm_compute. reflexivity. Qed.


(** ** Ways into the wardrobe *)

(** X22: the wardrobe opened from the home screen is in browsing mode
    (the add-item button is there and a tap opens the item's detail
    screen with that item), the wardrobe opened from the camera overlay
    is in selection mode and the overlay is closed first, and a wardrobe
    route without parameters counts as browsing. *)
Theorem wardrobe_mode_by_entry (w : World) :
  (exists p,
     navigation_calls (trace (exec pressMyWardrobe w))
     = navigation_calls (trace w) ++ [(Wardrobe, p)]
     /\ isSelectionMode (wardrobe_route p) = false
     /\ (forall loading items,
           AddItemButton ∈ wardrobe_controls (isSelectionMode (wardrobe_route p))
                             loading items)
     /\ (forall item w1,
           navigation_calls
             (trace (exec (handleItemPress (isSelectionMode (wardrobe_route p)) item) w1))
           = navigation_calls (trace w1) ++ [(ItemDetail, ItemParam item)]))
  /\ (exists p,
        trace (exec pressChooseFromWardrobe w)
        = trace w ++ [SetCameraModalVisible false; Navigate Wardrobe p]
        /\ isSelectionMode (wardrobe_route p) = true)
  /\ isSelectionMode (wardrobe_route NoParams) = false.
Proof.
  split; [|split; [|reflexivity]].
  - exists (SelectionMode false). unfold pressMyWardrobe. run.
    split; [by read_all|]. split; [reflexivity|]. split.
    + intros loading items. unfold wardrobe_controls.
      cbn [wardrobe_route isSelectionMode negb].
      rewrite !elem_of_app. right. right. right. by apply list_elem_of_singleton.
    + intros item w1. cbn [wardrobe_route isSelectionMode handleItemPress].
      run. by read_all.
  - exists (SelectionMode true). unfold pressChooseFromWardrobe. run.
    split; [by rewrite <- app_assoc|reflexivity].
Qed.

(** ** What a recommendation request carries *)

(** X23: the prompt goes out as it was typed, not trimmed and not
    checked, so an empty prompt is sent too; latitude and longitude are
    in the body exactly when the coordinates are known; and only a
    request that starts from a wardrobe item names a base image. *)
Theorem recommendation_request_body (item : WardrobeItem) (prompt : jsstring)
    (coords : option Coords) (net : Fetched (Json OutfitData))
    (m1 m2 : bool) (w : World) :
  exists rq rq',
    requests (trace (exec (generateFromPrompt prompt coords net m1 m2) w))
      = requests (trace w) ++ [rq]
    /\ requests (trace (exec (handleWardrobeSelection item prompt coords net m1 m2) w))
      = requests (trace w) ++ [rq']
    /\ Forall (fun r => url r = endpoint OpRecommendFromPrompt
                        /\ json_member "prompt" r = Some (JStr prompt)
                        /\ json_member "lat" r = (fun c => JNum (lat c)) <$> coords
                        /\ json_member "lon" r = (fun c => JNum (lon c)) <$> coords)
              [rq; rq']
    /\ json_member "base_image_url" rq = None
    /\ json_member "base_image_url" rq' = Some (JStr (image_url item)).
Proof.
  exists {| method := POST; url := endpoint OpRecommendFromPrompt;
            headers := [("Authorization"%string, bearer (token w));
                        ("Content-Type"%string, lit "application/json")];
            body := JsonBody ([("prompt"%string, JStr prompt)]
                              ++ coords_json coords) |},
         {| method := POST; url := endpoint OpRecommendFromPrompt;
            headers := [("Authorization"%string, bearer (token w));
                        ("Content-Type"%string, lit "application/json")];
            body := JsonBody ([("prompt"%string, JStr prompt);
                               ("base_image_url"%string, JStr (image_url item))]
                              ++ coords_json coords) |}.
  split; [|split].
  - unfold generateFromPrompt, afterFetch, showResult.
    destruct net as [|[st [| |d]]], m1, m2; run;
      try (destruct (ok _); run); read_trace; reflexivity.
  - unfold handleWardrobeSelection, afterFetch, showResult.
    destruct net as [|[st [| |d]]], m1, m2; run;
      try (destruct (ok _); run); read_trace; reflexivity.
  - destruct coords as [c|]; repeat split; repeat constructor.
Qed.

(** An empty prompt is sent all the same. *)
Example empty_prompt_is_sent :
  List.map (json_member "prompt")
    (requests (trace (exec (generateFromPrompt (lit "") None NetworkFailure true true)
                        (signed_in (lit "abc")))))
  = [Some (JStr [])].
Proof. vm_compute. reflexivity. Qed.


(** ** Memory and storage *)

(** X25: at start-up the stored token alone decides the screens: an app
    started on a storage shows the authenticated screens exactly when a
    non-empty token is stored under "token", and boot itself writes
    nothing. *)
Theorem boot_follows_storage (w : World) :
  let w' := exec boot (restart w) in
  (nav_state w' = Authenticated <-> truthy (storage w !! "token"%string) = true)
  /\ storage w' = storage w
  /\ (nav_state w' = Authenticated -> token w' = storage w !! "token"%string).
Proof.
  cbv zeta. unfold boot, restart, nav_state. run.
  destruct (storage w !! "token"%string) as [[|c t]|]; cbn [truthy nonempty]; run;
    cbn [truthy nonempty]; repeat split; intros; congruence.
Qed.

(** X26: memory and storage never drift apart: if the token in memory
    is the one stored under "token", this is still so after any handler
    that talks to the backend, whatever the answer, and after
    [signOut]. *)
Theorem handlers_keep_in_sync (c : ApiCall) (w : World) :
  in_sync w -> in_sync (exec (run_call c) w) /\ in_sync (exec signOut w).
Proof.
  unfold in_sync. intros H. split.
  - destruct c; cbn [run_call];
      unfold signIn, signUp, fetchItems, confirmDelete, handlePhotoUpload,
        generateFromPrompt, handleWardrobeSelection, handleLaunchCamera,
        afterFetch, showResult;
      crunch;
      first [ exact H | apply lookup_insert_eq | apply lookup_delete_eq ].
  - run. apply lookup_delete_eq.
Qed.

Lemma handlers_keep_in_sync_witness :
  in_sync (exec (run_call (CallFetchItems
                             (Responded {| status := 401; payload := JNull |})
                             true true)) (signed_in (lit "abc"))).
Proof.
  apply (handlers_keep_in_sync
           (CallFetchItems (Responded {| status := 401; payload := JNull |})
              true true) (signed_in (lit "abc"))).
  reflexivity.
Defined.

(** X27: whatever the rationale, every stylist note is its own trim and
    is not empty. *)
Theorem notes_are_trimmed (s : jsstring) :
  Forall (fun p => trim p = p /\ nonempty p = true) (reasonPoints s).
Proof.
  eapply Forall_impl; [apply reasonPoints_trimmed|].
  intros p [Ht Hne]. split; [exact Ht|]. by destruct p.
Qed.
